(** * Pre- and post-processing callbacks of the hotel agent sample

    Shallow embedding of [samples/pre_post_processing/python/adk/agent.py]:
    the policy interceptor [enfore_business_rules], the response enricher
    [enrich_response] and the turn driver [run_chat_turn].

    Python objects live in a store: a mutable object (dict, list) is a
    reference into a heap, so that aliasing between the argument of
    [enrich_response] and the value it returns can be stated.  Printing is
    an output trace, exceptions are an outcome of the computation.

    The modules [Str], [Py], [Copy], [Datetime] and [Agent] hold the
    definitions; the modules named [...Facts] hold the lemmas about them;
    the claims of the specification come last. *)

From Stdlib Require Import ZArith Ascii List Lia DecimalString.
From stdpp Require Import base option list gmap strings.

(** ** Strings *)

Module Str.

(** Line feed, written [\n] in the source. *)
Definition nl : string := String (ascii_of_nat 10) EmptyString.

(** [needle in hay] of Python for two [str] values. *)
Fixpoint contains (needle hay : string) : bool :=
  String.prefix needle hay ||
  match hay with
  | EmptyString => false
  | String _ rest => contains needle rest
  end.

(** [str(n)] for an [int]. *)
Definition of_Z (n : Z) : string := NilZero.string_of_int (Z.to_int n).

(** ["".join(parts)]. *)
Fixpoint join (parts : list string) : string :=
  match parts with
  | [] => EmptyString
  | p :: rest => p +:+ join rest
  end.

End Str.

(** ** Python values, the object store and the effects of a call *)

Module Py.

(** A location in the store; an object's identity. *)
Abbreviation loc := nat (only parsing).

(** Values: immutable ones are carried directly, a mutable object is a
    reference into the store. *)
Inductive val :=
| VNone
| VBool (b : bool)
| VInt (n : Z)
| VStr (s : string)
| VRef (l : loc).

(** Mutable objects.  A [dict] keeps its items in insertion order. *)
Inductive obj :=
| ODict (items : list (string * val))
| OList (elems : list val).

(** The store only grows: a new object takes the next free location. *)
Abbreviation heap := (list obj) (only parsing).

Inductive exn :=
| ValueError
| TypeError
| KeyError
| AttributeError
| RecursionError
| OtherError (name : string).

Inductive outcome (A : Type) :=
| Ok (a : A)
| Raise (e : exn).
Global Arguments Ok {A} a.
Global Arguments Raise {A} e.

Record world := World { heap_of : heap; stdout : list string }.

(** A computation reads and writes the store, prints, and returns or
    raises. *)
Definition M (A : Type) := world -> outcome A * world.

Definition ret {A} (a : A) : M A := fun w => (Ok a, w).

Definition bind {A B} (m : M A) (k : A -> M B) : M B :=
  fun w =>
    match m w with
    | (Ok a, w') => k a w'
    | (Raise e, w') => (Raise e, w')
    end.

Definition raise {A} (e : exn) : M A := fun w => (Raise e, w).

Definition lift {A} (r : outcome A) : M A := fun w => (r, w).

Definition print (line : string) : M unit :=
  fun w => (Ok tt, World (heap_of w) (stdout w ++ [line])).

Definition alloc (o : obj) : M val :=
  fun w => (Ok (VRef (length (heap_of w))),
            World (heap_of w ++ [o]) (stdout w)).

Definition get_heap : M heap := fun w => (Ok (heap_of w), w).

Definition put_heap (h : heap) : M unit :=
  fun w => (Ok tt, World h (stdout w)).

Declare Scope py_scope.
Delimit Scope py_scope with py.
Notation "x <- m ;; k" := (bind m (fun x => k))
  (at level 100, m at next level, right associativity) : py_scope.
Notation "m ;;; k" := (bind m (fun _ => k))
  (at level 100, right associativity) : py_scope.

(** *** Items of a dict *)

Fixpoint items_get (k : string) (items : list (string * val)) : option val :=
  match items with
  | [] => None
  | (k', v) :: rest => if decide (k = k') then Some v else items_get k rest
  end.

(** [d[k] = v]: an existing key keeps its position, a new key goes last. *)
Fixpoint items_set (k : string) (v : val) (items : list (string * val))
  : list (string * val) :=
  match items with
  | [] => [(k, v)]
  | (k', v') :: rest =>
      if decide (k = k') then (k, v) :: rest
      else (k', v') :: items_set k v rest
  end.

(** *** Type tests and dict operations on values *)

(** [isinstance(v, dict)] *)
Definition is_dict (h : heap) (v : val) : bool :=
  match v with
  | VRef l => match h !! l with Some (ODict _) => true | _ => false end
  | _ => false
  end.

(** [isinstance(v, str)] *)
Definition is_str (v : val) : bool :=
  match v with VStr _ => true | _ => false end.

Definition isinstance_dict (v : val) : M bool :=
  (h <- get_heap ;; ret (is_dict h v))%py.

(** [d.get(k, default)] *)
Definition dict_get (d : val) (k : string) (dflt : val) : M val :=
  (h <- get_heap ;;
   match d with
   | VRef l =>
       match h !! l with
       | Some (ODict items) => ret (default dflt (items_get k items))
       | _ => raise AttributeError
       end
   | _ => raise AttributeError
   end)%py.

(** [d[k] = v] *)
Definition dict_setitem (d : val) (k : string) (v : val) : M unit :=
  (h <- get_heap ;;
   match d with
   | VRef l =>
       match h !! l with
       | Some (ODict items) => put_heap (<[l := ODict (items_set k v items)]> h)
       | _ => raise TypeError
       end
   | _ => raise TypeError
   end)%py.

(** A dict display [{k: v, ...}] builds a new object. *)
Definition new_dict (items : list (string * val)) : M val :=
  alloc (ODict (foldl (fun acc kv => items_set kv.1 kv.2 acc) [] items)).

(** *** Well-formed stores: no reference points outside the store *)

Definition children (o : obj) : list val :=
  match o with
  | ODict items => items.*2
  | OList elems => elems
  end.

Definition val_ok (n : nat) (v : val) : bool :=
  match v with
  | VRef l => bool_decide (l < n)
  | _ => true
  end.

Definition closed (h : heap) : bool :=
  forallb (fun o => forallb (val_ok (length h)) (children o)) h.

End Py.

(** ** [copy.deepcopy]

    The copy of a dict or list is a new object whose members are copies;
    a memo from the identity of an object to its copy makes an object met
    twice (shared, or on a cycle) be copied once.  The copy is entered in
    the memo before its members are copied, as in [_deepcopy_dict] and
    [_deepcopy_list] of the [copy] module.  The members are written into
    the copy once all of them are copied: nothing reads the copy before.
    Each object entered inside another takes room on the interpreter's
    stack, and [deepcopy] raises [RecursionError] when there is none
    left. *)

Module Copy.
Import Py.

Abbreviation memo := (gmap loc loc) (only parsing).
Abbreviation copy_state := (memo * heap)%type (only parsing).

Definition blank (o : obj) : obj :=
  match o with
  | ODict _ => ODict []
  | OList _ => OList []
  end.

(** The object [o] with its members replaced, in order, by [vs]. *)
Definition rebuild (o : obj) (vs : list val) : obj :=
  match o with
  | ODict items => ODict (zip (items.*1) vs)
  | OList _ => OList vs
  end.

Fixpoint copy_all (copy : val -> copy_state -> option (val * copy_state))
    (vs : list val) (st : copy_state) : option (list val * copy_state) :=
  match vs with
  | [] => Some ([], st)
  | v :: rest =>
      match copy v st with
      | None => None
      | Some (v', st') =>
          match copy_all copy rest st' with
          | None => None
          | Some (vs', st'') => Some (v' :: vs', st'')
          end
      end
  end.

(** [fuel] bounds the number of objects entered one inside the other;
    [None] is a recursion that went deeper than that (or a dangling
    reference, which a well-formed store does not have). *)
Fixpoint deepcopy_go (fuel : nat) (x : val) (st : copy_state)
  : option (val * copy_state) :=
  match x with
  | VRef l =>
      match st.1 !! l with
      | Some l' => Some (VRef l', st)
      | None =>
          match fuel, st.2 !! l with
          | S fuel', Some o =>
              let l' := length st.2 in
              let st1 := (<[l := l']> st.1, st.2 ++ [blank o]) in
              match copy_all (deepcopy_go fuel') (children o) st1 with
              | None => None
              | Some (vs, st2) =>
                  Some (VRef l', (st2.1, <[l' := rebuild o vs]> st2.2))
              end
          | _, _ => None
          end
      end
  | _ => Some (x, st)
  end.

(** How many objects [deepcopy] can enter one inside the other before the
    interpreter raises [RecursionError]: what the recursion limit and the
    frames in use leave, at two frames an object ([deepcopy] and the
    copier of the type). *)
Class Interpreter := recursion_depth : nat.

(** The most the interpreter allows unless the limit is raised:
    [sys.getrecursionlimit()] is 1000, two frames an object.  The frames
    in use when [deepcopy] is called make it less. *)
Definition default_depth : Interpreter := 500.

(** [deepcopy(x)] *)
Definition deepcopy `{Interpreter} (x : val) : M val :=
  fun w =>
    match deepcopy_go recursion_depth x (∅, heap_of w) with
    | Some (y, st) => (Ok y, World st.2 (stdout w))
    | None => (Raise RecursionError, w)
    end.

(** [v] is nested at most [n] deep in [h]: a chain of objects, each a
    member of the one before, that starts at [v] and meets no object of
    [seen] and no object twice, has at most [n] objects. *)
Fixpoint nested_within (n : nat) (seen : list loc) (h : heap) (v : val)
  : bool :=
  match v with
  | VRef l =>
      if bool_decide (l ∈ seen) then true
      else
        match n, h !! l with
        | S n', Some o =>
            forallb (nested_within n' (l :: seen) h) (children o)
        | _, _ => false
        end
  | _ => true
  end.

(** The image of a value under a memo: a reference is sent to the copy of
    the object it points to, anything else is itself. *)
Definition rename (m : memo) (v : val) : option val :=
  match v with
  | VRef l => VRef <$> m !! l
  | _ => Some v
  end.

Definition rename_obj (m : memo) (o : obj) : option obj :=
  rebuild o <$> mapM (rename m) (children o).

(** [v'] is the copy of [v]: itself when [v] is immutable, else a
    reference to the copy of the object [v] refers to. *)
Definition copy_of (m : memo) (v v' : val) : Prop :=
  match v with
  | VRef a => exists b, m !! a = Some b /\ v' = VRef b
  | _ => v' = v
  end.

(** *** What a deep copy of a store is *)

Section invariant.
Variable h0 : heap.

(** What holds of the memo and the store while [h0] is being copied.
    [P] are the objects whose copy has been entered in the memo and is
    still being filled. *)
Record inv (P : loc -> Prop) (st : copy_state) : Prop := mk_inv {
  inv_ext : exists ext, st.2 = h0 ++ ext;
  inv_range : forall a b, st.1 !! a = Some b ->
    a < length h0 /\ length h0 <= b < length st.2;
  inv_inj : forall a a' b,
    st.1 !! a = Some b -> st.1 !! a' = Some b -> a = a';
  inv_done : forall a b, st.1 !! a = Some b -> ~ P a ->
    exists o o', h0 !! a = Some o /\ rename_obj st.1 o = Some o'
                 /\ st.2 !! b = Some o';
  inv_onto : forall b, length h0 <= b < length st.2 ->
    exists a, st.1 !! a = Some b
}.

(** What [copy] returns for a value of [h0] is its copy. *)
Definition copies
    (copy : val -> copy_state -> option (val * copy_state)) : Prop :=
  forall P v st v' st',
    inv P st -> val_ok (length h0) v = true ->
    copy v st = Some (v', st') ->
    inv P st' /\ st.1 ⊆ st'.1 /\ rename st'.1 v = Some v'.

(** [h] is [h0] after a deep copy with memo [m]: [h0] is still there, the
    copies are new objects, one for each object copied, and the copy of an
    object is that object with every member replaced by its copy. *)
Definition copied_heap (m : memo) (h : heap) : Prop :=
  inv (fun _ => False) (m, h).

End invariant.

End Copy.

(** ** [datetime]: calendar arithmetic and ISO 8601 text *)

Module Datetime.
Import Py.
Local Open Scope Z_scope.

(** [utcoffset] is [None] for a naive value, else the offset from UTC in
    microseconds. *)
Record datetime := mk_datetime {
  year : Z; month : Z; day : Z;
  hour : Z; minute : Z; second : Z; microsecond : Z;
  utcoffset : option Z
}.

Record timedelta := mk_timedelta { days : Z; seconds : Z; microseconds : Z }.

Definition is_leap (y : Z) : bool :=
  (y mod 4 =? 0) && (negb (y mod 100 =? 0) || (y mod 400 =? 0)).

Definition DAYS_IN_MONTH : list Z :=
  [-1; 31; 28; 31; 30; 31; 30; 31; 31; 30; 31; 30; 31].

Definition DAYS_BEFORE_MONTH : list Z :=
  [-1; 0; 31; 59; 90; 120; 151; 181; 212; 243; 273; 304; 334].

Definition days_before_year (y : Z) : Z :=
  let y := y - 1 in y * 365 + y / 4 - y / 100 + y / 400.

Definition days_in_month (y m : Z) : Z :=
  if (m =? 2) && is_leap y then 29
  else default 0 (DAYS_IN_MONTH !! Z.to_nat m).

Definition days_before_month (y m : Z) : Z :=
  default 0 (DAYS_BEFORE_MONTH !! Z.to_nat m)
  + (if (2 <? m) && is_leap y then 1 else 0).

(** Day number of a date, 0001-01-01 being day 1. *)
Definition ymd2ord (y m d : Z) : Z :=
  days_before_year y + days_before_month y m + d.

Definition toordinal (d : datetime) : Z := ymd2ord (year d) (month d) (day d).

(** [timedelta(days, seconds, microseconds)], normalised so that
    [0 <= seconds < 86400] and [0 <= microseconds < 1000000]; [days]
    carries the sign. *)
Definition new_timedelta (d s us : Z) : timedelta :=
  let s := s + us / 1000000 in
  let us := us mod 1000000 in
  let d := d + s / 86400 in
  let s := s mod 86400 in
  mk_timedelta d s us.

Definition seconds_of_day (d : datetime) : Z :=
  second d + minute d * 60 + hour d * 3600.

(** [self - other] for two datetimes.  Two naive values, or two aware
    values, subtract; a naive and an aware one do not. *)
Definition datetime_sub (self other : datetime) : outcome timedelta :=
  let d := toordinal self - toordinal other in
  let s := seconds_of_day self - seconds_of_day other in
  let us := microsecond self - microsecond other in
  match utcoffset self, utcoffset other with
  | None, None => Ok (new_timedelta d s us)
  | Some myoff, Some otoff => Ok (new_timedelta d s (us + otoff - myoff))
  | _, _ => Raise TypeError
  end.

(** What [datetime.fromisoformat] reads.  The accepted language differs
    between versions of the interpreter, so the callbacks are defined over
    any reader; [None] is a string it rejects. *)
Class IsoFormat := fromisoformat_str : string -> option datetime.

(** [datetime.fromisoformat(v)] *)
Definition fromisoformat `{IsoFormat} (v : val) : outcome datetime :=
  match v with
  | VStr s =>
      match fromisoformat_str s with
      | Some d => Ok d
      | None => Raise ValueError
      end
  | _ => Raise TypeError
  end.

(** *** A reader for [YYYY-MM-DD[*HH:MM:SS[(+|-)HH:MM]]]

    This is the part of the format that every version reads, and reads the
    same way. *)

Definition digit (c : ascii) : option Z := Z.of_nat <$> Ascii.is_nat c.

Fixpoint digits (n : nat) (acc : Z) (s : string) : option (Z * string) :=
  match n, s with
  | O, _ => Some (acc, s)
  | S n', String c rest => d ← digit c; digits n' (10 * acc + d) rest
  | S _, EmptyString => None
  end.

Definition expect (c : ascii) (s : string) : option string :=
  match s with
  | String c' rest => if decide (c = c') then Some rest else None
  | EmptyString => None
  end.

Definition check_date (y m d : Z) : bool :=
  (1 <=? y) && (y <=? 9999) && (1 <=? m) && (m <=? 12)
  && (1 <=? d) && (d <=? days_in_month y m).

Definition check_time (hh mi ss : Z) : bool :=
  (hh <=? 23) && (mi <=? 59) && (ss <=? 59).

Definition parse_date (s : string) : option (Z * Z * Z * string) :=
  '(y, s) ← digits 4 0 s;
  s ← expect "-" s;
  '(m, s) ← digits 2 0 s;
  s ← expect "-" s;
  '(d, s) ← digits 2 0 s;
  if check_date y m d then Some (y, m, d, s) else None.

Definition parse_clock (s : string) : option (Z * Z * Z * string) :=
  '(hh, s) ← digits 2 0 s;
  s ← expect ":" s;
  '(mi, s) ← digits 2 0 s;
  s ← expect ":" s;
  '(ss, s) ← digits 2 0 s;
  if check_time hh mi ss then Some (hh, mi, ss, s) else None.

Definition parse_offset (s : string) : option Z :=
  match s with
  | String sign s =>
      sgn ← (if decide (sign = "+"%char) then Some 1
             else if decide (sign = "-"%char) then Some (-1) else None);
      '(hh, s) ← digits 2 0 s;
      s ← expect ":" s;
      '(mi, s) ← digits 2 0 s;
      match s with
      | EmptyString =>
          if check_time hh mi 0
          then Some (sgn * (hh * 3600 + mi * 60) * 1000000) else None
      | _ => None
      end
  | EmptyString => None
  end.

Definition iso_extended (s : string) : option datetime :=
  '(y, m, d, s) ← parse_date s;
  match s with
  | EmptyString => Some (mk_datetime y m d 0 0 0 0 None)
  | String _ s =>
      '(hh, mi, ss, s) ← parse_clock s;
      match s with
      | EmptyString => Some (mk_datetime y m d hh mi ss 0 None)
      | _ => off ← parse_offset s; Some (mk_datetime y m d hh mi ss 0 (Some off))
      end
  end.

End Datetime.

(** ** The callbacks and the turn driver of [agent.py] *)

Module Agent.
Import Py Datetime Copy.
Local Open Scope py_scope.

(** Of a tool the callbacks read the [name] only. *)
Record ToolboxTool := mk_tool { name : string }.

(** [args[k]] *)
Definition getitem (args : gmap string val) (k : string) : M val :=
  match args !! k with
  | Some v => ret v
  | None => raise KeyError
  end.

(** [k in args] *)
Definition has_key (args : gmap string val) (k : string) : bool :=
  bool_decide (is_Some (args !! k)).

Definition error_result : string := "Error: Maximum stay duration is 14 days.".

(** Pre processing: fired before a tool is executed. *)
Definition enfore_business_rules `{IsoFormat}
    (tool : ToolboxTool) (args : gmap string val) : M val :=
  let tool_name := name tool in
  print ("POLICY CHECK: Intercepting '" +:+ tool_name +:+ "'") ;;;
  if bool_decide (tool_name = "update-hotel")
     && has_key args "checkin_date" && has_key args "checkout_date"
  then
    a <- getitem args "checkin_date" ;;
    start <- lift (fromisoformat a) ;;
    b <- getitem args "checkout_date" ;;
    end_ <- lift (fromisoformat b) ;;
    delta <- lift (datetime_sub end_ start) ;;
    let duration := days delta in
    if (14 <? duration)%Z then
      print "BLOCKED: Stay too long" ;;;
      new_dict [("result", VStr error_result)]
    else ret VNone
  else ret VNone.

(** The f-string of [enrich_response]. *)
Definition enriched_text (loyalty_bonus : Z) (result : string) : string :=
  "Booking Confirmed!" +:+ Str.nl +:+ " You earned "
  +:+ Str.of_Z loyalty_bonus
  +:+ " Loyalty Points with this stay." +:+ Str.nl +:+ Str.nl
  +:+ "System Details: " +:+ result.

(** The part of [enrich_response] after [result] is bound. *)
Definition enrich_result `{Interpreter}
    (tool : ToolboxTool) (tool_response result : val) : M val :=
  let tool_name := name tool in
  match result with
  | VStr text =>
      if negb (Str.contains "Error" text) then
        if bool_decide (tool_name = "book-hotel") then
          let loyalty_bonus := 500%Z in
          let enriched_result := enriched_text loyalty_bonus text in
          d <- isinstance_dict tool_response ;;
          if d then
            modified_response <- deepcopy tool_response ;;
            dict_setitem modified_response "result" (VStr enriched_result) ;;;
            ret modified_response
          else ret (VStr enriched_result)
        else ret VNone
      else ret VNone
  | _ => ret VNone
  end.

(** Post processing: fired after a tool execution. *)
Definition enrich_response `{Interpreter}
    (tool : ToolboxTool) (args : gmap string val) (tool_response : val)
  : M val :=
  d <- isinstance_dict tool_response ;;
  if d then
    result <- dict_get tool_response "result" (VStr "") ;;
    enrich_result tool tool_response result
  else if is_str tool_response then
    enrich_result tool tool_response tool_response
  else ret VNone.

(** *** Response events *)

Record Part := mk_part { text : option string }.
Record Content := mk_content { role : option string; parts : option (list Part) }.
Record Event := mk_event { content : option Content }.

(** What iterating over [runner.run_async(...)] gives: events, then the
    end of the iteration or an exception. *)
Inductive stream :=
| Done
| Yield (event : Event) (rest : stream)
| Fails (e : exn).

Record Runner := mk_runner {
  run_async : string -> string -> Content -> stream
}.

(** [for part in parts: if part.text: response_text += part.text] *)
Fixpoint add_parts (ps : list Part) (response_text : string) : string :=
  match ps with
  | [] => response_text
  | part :: rest =>
      add_parts rest
        match text part with
        | Some (String c t) => response_text +:+ String c t
        | _ => response_text
        end
  end.

(** The body of the [async for]. *)
Definition add_event (event : Event) (response_text : string) : string :=
  match content event with
  | Some c =>
      match parts c with
      | Some (p :: ps) => add_parts (p :: ps) response_text
      | _ => response_text
      end
  | None => response_text
  end.

Fixpoint consume (s : stream) (response_text : string) : outcome string :=
  match s with
  | Done => Ok response_text
  | Yield event rest => consume rest (add_event event response_text)
  | Fails e => Raise e
  end.

(** Executes a single chat turn and prints the interaction. *)
Definition run_chat_turn (runner : Runner) (session_id user_id : string)
    (message_text : string) : M unit :=
  print (Str.nl +:+ "USER: '" +:+ message_text +:+ "'") ;;;
  let response_text := "" in
  response_text <-
    lift (consume
            (run_async runner user_id session_id
               (mk_content (Some "user") (Some [mk_part (Some message_text)])))
            response_text) ;;
  print ("AI: " +:+ response_text).

(** *** Words for stating the claims *)

(** The text fragments an event carries. *)
Definition fragments (event : Event) : list string :=
  match content event with
  | Some c =>
      match parts c with
      | Some ps => omap text ps
      | None => []
      end
  | None => []
  end.

(** The stream that gives [events] and goes on as [tail]. *)
Fixpoint stream_then (events : list Event) (tail : stream) : stream :=
  match events with
  | [] => tail
  | e :: rest => Yield e (stream_then rest tail)
  end.

(** A finite sequence of events, read to its end. *)
Definition stream_of (events : list Event) : stream := stream_then events Done.

(** The message a turn submits to the runner. *)
Definition user_message (message_text : string) : Content :=
  mk_content (Some "user") (Some [mk_part (Some message_text)]).

(** The inclusive day span of a stay: the number of calendar days from the
    day of check-in to the day of check-out, both counted. *)
Definition inclusive_day_span (checkin checkout : datetime) : Z :=
  (toordinal checkout - toordinal checkin + 1)%Z.

(** The line the interceptor prints on entry. *)
Definition policy_line (tool : ToolboxTool) : string :=
  "POLICY CHECK: Intercepting '" +:+ name tool +:+ "'".

(** The world after the interceptor let the call through. *)
Definition passed (tool : ToolboxTool) (w : world) : world :=
  World (heap_of w) (stdout w ++ [policy_line tool]).

(** The world after the interceptor blocked the call: the replacement
    result is a new dict. *)
Definition blocked (tool : ToolboxTool) (w : world) : world :=
  World (heap_of w ++ [ODict [("result", VStr error_result)]])
        (stdout w ++ [policy_line tool; "BLOCKED: Stay too long"]).

(** A value that names a calendar day: midnight, no UTC offset. *)
Definition is_calendar_date (d : datetime) : bool :=
  bool_decide (hour d = 0 /\ minute d = 0 /\ second d = 0
               /\ microsecond d = 0 /\ utcoffset d = None)%Z.

(** A string [fromisoformat] rejects. *)
Definition malformed `{IsoFormat} (v : val) : Prop :=
  match v with
  | VStr s => fromisoformat_str s = None
  | _ => False
  end.

(** What [enrich_response] binds to [result]; [None] where it returns at
    once, the response being neither a dict nor a string. *)
Definition result_of (h : heap) (tool_response : val) : option val :=
  match tool_response with
  | VRef l =>
      match h !! l with
      | Some (ODict items) => Some (default (VStr "") (items_get "result" items))
      | _ => None
      end
  | VStr _ => Some tool_response
  | _ => None
  end.

(** The line the driver prints before it submits the message. *)
Definition user_line (message_text : string) : string :=
  Str.nl +:+ "USER: '" +:+ message_text +:+ "'".

End Agent.

(** ** The agent runtime, as far as this file relies on it *)

Module Live.
Import Py Datetime Copy Agent.
Local Open Scope py_scope.

(** Modelled from the spec: what the agent runtime does with a message.
    The model behind the agent decides the steps of a turn: to end the
    turn, to stream an event back, to invoke a tool and go on from its
    result, or to fail (the network, the backend). *)
Inductive plan :=
| Finish
| Emit (event : Event) (rest : plan)
| Call (tool : ToolboxTool) (args : gmap string val) (next : val -> plan)
| Abort (e : exn).

(** A runner that runs the tool calls of a turn in the world of the
    program: it holds the two callbacks of the agent, the tools as the
    server runs them, and the decisions of the model. *)
Record Runner := mk_runner {
  before_tool_callback : ToolboxTool -> gmap string val -> M val;
  after_tool_callback : ToolboxTool -> gmap string val -> val -> M val;
  remote_tool : ToolboxTool -> gmap string val -> M val;
  plan_for : string -> string -> Content -> plan
}.

(** Modelled from the spec: a tool call.  The runtime calls the
    interceptor; what the interceptor returns, if not [None], stands for
    the result and the real tool is not invoked; then the runtime calls
    the enricher on the result, and keeps the result if the enricher
    returns [None].  An exception of a callback or of the tool is not
    caught. *)
Definition call_tool (runner : Runner)
    (tool : ToolboxTool) (args : gmap string val) : M val :=
  override <- before_tool_callback runner tool args ;;
  response <-
    match override with
    | VNone => remote_tool runner tool args
    | _ => ret override
    end ;;
  enriched <- after_tool_callback runner tool args response ;;
  ret match enriched with
      | VNone => response
      | _ => enriched
      end.

(** Modelled from the spec: the events of a turn, and the world its tool
    calls leave.  An exception ends the stream. *)
Fixpoint play (runner : Runner) (p : plan) (w : world) : stream * world :=
  match p with
  | Finish => (Done, w)
  | Emit event rest =>
      let '(s, w') := play runner rest w in (Yield event s, w')
  | Call tool args next =>
      match call_tool runner tool args w with
      | (Ok v, w') => play runner (next v) w'
      | (Raise e, w') => (Fails e, w')
      end
  | Abort e => (Fails e, w)
  end.

(** [runner.run_async(user_id=..., session_id=..., new_message=...)],
    iterated to its end. *)
Definition run_async (runner : Runner) (user_id session_id : string)
    (new_message : Content) : world -> stream * world :=
  play runner (plan_for runner user_id session_id new_message).

(** [run_chat_turn] of [agent.py] over such a runner: as
    [Agent.run_chat_turn], with what the tool calls of the turn print and
    store between the user's line and the answer. *)
Definition run_chat_turn (runner : Runner) (session_id user_id : string)
    (message_text : string) : M unit :=
  print (Str.nl +:+ "USER: '" +:+ message_text +:+ "'") ;;;
  let response_text := "" in
  fun w =>
    let '(events, w') :=
      run_async runner user_id session_id
        (mk_content (Some "user") (Some [mk_part (Some message_text)])) w in
    (response_text <- lift (consume events response_text) ;;
     print ("AI: " +:+ response_text)) w'.

(** *** Words for stating the claims *)

(** From the step [p] in the world [w] the turn comes to the step [p'] in
    the world [w'], with [events] streamed back on the way. *)
Inductive reaches (runner : Runner)
  : plan -> world -> list Event -> plan -> world -> Prop :=
| reaches_here p w : reaches runner p w [] p w
| reaches_emit event rest w events p' w' :
    reaches runner rest w events p' w' ->
    reaches runner (Emit event rest) w (event :: events) p' w'
| reaches_call tool args next w v w1 events p' w' :
    call_tool runner tool args w = (Ok v, w1) ->
    reaches runner (next v) w1 events p' w' ->
    reaches runner (Call tool args next) w events p' w'.

(** A plan that invokes no tool, and the stream it gives. *)
Fixpoint calls_no_tool (p : plan) : bool :=
  match p with
  | Finish => true
  | Emit _ rest => calls_no_tool rest
  | Call _ _ _ => false
  | Abort _ => true
  end.

Fixpoint stream_of_plan (p : plan) : stream :=
  match p with
  | Finish => Done
  | Emit event rest => Yield event (stream_of_plan rest)
  | Call _ _ _ => Done
  | Abort e => Fails e
  end.

End Live.

(** ** The program: [main] *)

Module Program.
Import Py Datetime Copy Agent.
Local Open Scope py_scope.

(** [s * n] for a [str] and an [int]. *)
Fixpoint repeat_str (s : string) (n : nat) : string :=
  match n with
  | O => ""
  | S n' => s +:+ repeat_str s n'
  end.

(** What [main] calls outside this file: the toolbox client (the tools it
    serves, what the server does when one is invoked, its closing) and
    the agent framework (the decisions of the model of an agent with
    these tools, the creation of a session for an application, a user and
    a session id). *)
Record Env := mk_env {
  get_tools : M (list ToolboxTool);
  remote_tool : ToolboxTool -> gmap string val -> M val;
  model : list ToolboxTool -> string -> string -> Content -> Live.plan;
  create_session : string -> string -> string -> M unit;
  close : M unit
}.

Definition first_message : string := "Book hotel with id 3.".

Definition second_message : string :=
  "Book a hotel with id 5 with checkin date 2025-01-18 and checkout date 2025-02-10".

Definition main `{IsoFormat} `{Interpreter} (env : Env) : M unit :=
  tools <- get_tools env ;;
  let runner :=
    Live.mk_runner enfore_business_rules enrich_response
      (remote_tool env) (model env tools) in
  let session_id := "test-session" in
  let user_id := "test-user" in
  create_session env "my_agent" user_id session_id ;;;
  Live.run_chat_turn runner session_id user_id first_message ;;;
  print (repeat_str "-" 50) ;;;
  Live.run_chat_turn runner session_id user_id second_message ;;;
  close env.

(** *** Words for stating further properties *)

(** The runner [main] builds from the tools it was given. *)
Definition runner_of `{IsoFormat} `{Interpreter}
    (env : Env) (tools : list ToolboxTool) : Live.Runner :=
  Live.mk_runner enfore_business_rules enrich_response
    (remote_tool env) (model env tools).

(** The events that answer a message of [main], and the world the turn
    leaves, from the world after the user's line. *)
Definition answer (runner : Live.Runner) (message_text : string)
    (w : world) : stream * world :=
  Live.run_async runner "test-user" "test-session"
    (user_message message_text)
    (World (heap_of w) (stdout w ++ [user_line message_text])).

(** [env] with another way to close the toolset. *)
Definition with_close (env : Env) (c : M unit) : Env :=
  mk_env (get_tools env) (remote_tool env) (model env) (create_session env) c.

(** The instant a value denotes, in microseconds from the start of day 0;
    for an aware value the instant is taken in UTC. *)
Definition instant (d : datetime) : Z :=
  ((toordinal d * 86400 + seconds_of_day d) * 1000000 + microsecond d
   - default 0 (utcoffset d))%Z.

(** Fifteen days, in microseconds. *)
Definition fifteen_days : Z := (15 * 86400 * 1000000)%Z.

(** The text an event sequence carries. *)
Definition text_of (events : list Event) : string :=
  Str.join (flat_map fragments events).

(** The line [main] prints between the two turns. *)
Definition dashes : string := repeat_str "-" 50.

(** An environment to run [main] in: two tools, a server that answers
    every call with a line of text, a session that is always created, a
    model that decides by [steps], and a toolset whose closing prints a
    line. *)
Definition sample_env (steps : Content -> Live.plan) : Env :=
  mk_env (ret [mk_tool "book-hotel"; mk_tool "update-hotel"])
         (fun _ _ => ret (VStr "done"))
         (fun _ _ _ message => steps message)
         (fun _ _ _ => ret tt)
         (print "toolset closed").

(** The decisions of the samples: [first] for the first message of
    [main], [other] for any other message. *)
Definition decides (first other : Live.plan) (message : Content)
  : Live.plan :=
  match parts message with
  | Some [part] =>
      if decide (text part = Some first_message) then first else other
  | _ => other
  end.

(** An event that carries one text. *)
Definition says (t : string) : Event :=
  mk_event (Some (mk_content (Some "model") (Some [mk_part (Some t)]))).



End Program.

(** ** Facts about strings *)

Module StrFacts.
Import Str.

Lemma app_cons (c : ascii) (a b : string) :
  String c a +:+ b = String c (a +:+ b).
Proof. reflexivity. Qed.

Lemma app_nil_l (b : string) : "" +:+ b = b.
Proof. reflexivity. Qed.

Lemma app_empty_r (s : string) : s +:+ "" = s.
Proof. induction s as [|c s IH]; [done | by rewrite app_cons, IH]. Qed.

Lemma app_assoc (a b c : string) : (a +:+ b) +:+ c = a +:+ (b +:+ c).
Proof. induction a as [|x a IH]; [done | by rewrite !app_cons, IH]. Qed.

Lemma prefix_app (n rest : string) : String.prefix n (n +:+ rest) = true.
Proof.
  induction n as [|c n IH]; [by destruct rest |]. rewrite app_cons. simpl.
  destruct (Ascii.ascii_dec c c) as [_|Hne]; [exact IH | by destruct Hne].
Qed.

Lemma prefix_split (n h : string) :
  String.prefix n h = true -> exists rest, h = n +:+ rest.
Proof.
  revert h. induction n as [|c n IH]; intros h Hp.
  - by exists h.
  - destruct h as [|d h]; simpl in Hp; [done |].
    destruct (Ascii.ascii_dec c d) as [->|]; [| done].
    destruct (IH _ Hp) as [rest ->]. by exists rest.
Qed.

Lemma contains_nil (n : string) : contains n "" = String.prefix n "".
Proof. unfold contains. by rewrite orb_false_r. Qed.

Lemma contains_cons (n : string) (c : ascii) (h : string) :
  contains n (String c h) = String.prefix n (String c h) || contains n h.
Proof. reflexivity. Qed.

(** [contains] decides the substring relation. *)
Lemma contains_spec (n h : string) :
  contains n h = true <-> exists a b, h = a +:+ n +:+ b.
Proof.
  split.
  - induction h as [|c h IH].
    + rewrite contains_nil. intros Hp.
      destruct (prefix_split _ _ Hp) as [rest E]. by exists "", rest.
    + rewrite contains_cons. intros [Hp | Hc]%orb_true_iff.
      * destruct (prefix_split _ _ Hp) as [rest E]. by exists "", rest.
      * destruct (IH Hc) as (a & b & ->). by exists (String c a), b.
  - intros (a & b & ->). induction a as [|c a IH].
    + rewrite app_nil_l.
      assert (String.prefix n (n +:+ b) = true) as Hp by apply prefix_app.
      destruct (n +:+ b).
      * by rewrite contains_nil.
      * by rewrite contains_cons, Hp.
    + by rewrite app_cons, contains_cons, IH, orb_true_r.
Qed.

Lemma contains_suffix (a n : string) : contains n (a +:+ n) = true.
Proof. apply contains_spec. exists a, "". by rewrite app_empty_r. Qed.

Lemma contains_app_r (n a b : string) :
  contains n b = true -> contains n (a +:+ b) = true.
Proof.
  intros (x & y & ->)%contains_spec. apply contains_spec.
  exists (a +:+ x), y. by rewrite app_assoc.
Qed.

Lemma contains_app_l (n a b : string) :
  contains n a = true -> contains n (a +:+ b) = true.
Proof.
  intros (x & y & ->)%contains_spec. apply contains_spec.
  exists x, (y +:+ b). by rewrite !app_assoc.
Qed.

Lemma join_app (xs ys : list string) : join (xs ++ ys) = join xs +:+ join ys.
Proof.
  induction xs as [|x xs IH]; simpl; [done | by rewrite IH, app_assoc].
Qed.

End StrFacts.

(** ** Facts about dicts and stores *)

Module PyFacts.
Import Py.




Lemma closed_lookup h l o v :
  closed h = true -> h !! l = Some o -> v ∈ children o ->
  val_ok (length h) v = true.
Proof.
  unfold closed. rewrite forallb_forall. intros Hc Hl Hv.
  specialize (Hc o). rewrite forallb_forall in Hc.
  apply Hc; apply list_elem_of_In; [by eapply list_elem_of_lookup_2 | done].
Qed.

End PyFacts.

(** ** Facts about [deepcopy] *)

Module CopyFacts.
Import Py PyFacts Copy.

Lemma rename_mono (m m' : memo) (v v' : val) :
  m ⊆ m' -> rename m v = Some v' -> rename m' v = Some v'.
Proof.
  intros Hsub. destruct v; simpl; try done.
  destruct (m !! l) as [b|] eqn:E; [| done].
  by rewrite (lookup_weaken _ _ _ _ E Hsub).
Qed.

Lemma rename_all_mono (m m' : memo) (vs vs' : list val) :
  m ⊆ m' ->
  Forall2 (fun v v' => rename m v = Some v') vs vs' ->
  Forall2 (fun v v' => rename m' v = Some v') vs vs'.
Proof.
  intros Hsub H. eapply Forall2_impl; [exact H |]. eauto using rename_mono.
Qed.

Lemma rename_obj_mono (m m' : memo) (o o' : obj) :
  m ⊆ m' -> rename_obj m o = Some o' -> rename_obj m' o = Some o'.
Proof.
  unfold rename_obj. intros Hsub Hr.
  destruct (mapM (rename m) (children o)) as [vs|] eqn:E; [| done].
  apply mapM_Some_1 in E.
  by rewrite (mapM_Some_2 _ _ _ (rename_all_mono _ _ _ _ Hsub E)).
Qed.

Lemma rename_copy_of (m : memo) (v v' : val) :
  rename m v = Some v' <-> copy_of m v v'.
Proof.
  destruct v; simpl; try (split; congruence).
  destruct (m !! l) as [b|]; simpl; split.
  - intros [= <-]. by exists b.
  - by intros (b' & [= <-] & ->).
  - done.
  - by intros (b' & [=] & _).
Qed.

(** A reference among renamed values is the copy of some object. *)
Lemma renamed_ref (m : memo) (vs vs' : list val) (c : loc) :
  Forall2 (fun v v' => rename m v = Some v') vs vs' ->
  VRef c ∈ vs' -> exists a, m !! a = Some c.
Proof.
  intros HF Hc. apply list_elem_of_lookup in Hc as [i Hi].
  destruct (Forall2_lookup_r _ _ _ _ _ HF Hi) as (v & _ & Hr).
  apply rename_copy_of in Hr. destruct v; simpl in Hr; try congruence.
  destruct Hr as (b & Hb & [= ->]). eauto.
Qed.

Lemma children_rebuild (o : obj) (vs : list val) :
  length (children o) = length vs -> children (rebuild o vs) = vs.
Proof.
  destruct o as [items|elems]; simpl; [| done].
  rewrite length_fmap. intros Hlen. apply snd_zip. rewrite length_fmap. lia.
Qed.

Section spec.
Variable h0 : heap.
Hypothesis h0_closed : closed h0 = true.

Lemma copy_all_sound copy (Hcopy : copies h0 copy) P vs :
  forall st vs' st',
    inv h0 P st -> Forall (fun v => val_ok (length h0) v = true) vs ->
    copy_all copy vs st = Some (vs', st') ->
    inv h0 P st' /\ st.1 ⊆ st'.1
    /\ Forall2 (fun v v' => rename st'.1 v = Some v') vs vs'.
Proof.
  induction vs as [|v vs IH]; intros st vs' st' Hinv Hok; simpl.
  - intros [= <- <-]. split_and!; [done | done | constructor].
  - apply Forall_cons in Hok as [Hv Hvs].
    destruct (copy v st) as [[v1 st1]|] eqn:E1; [| done].
    destruct (Hcopy P v st v1 st1 Hinv Hv E1) as (Hinv1 & Hsub1 & Hr1).
    destruct (copy_all copy vs st1) as [[vs2 st2]|] eqn:E2; [| done].
    destruct (IH st1 vs2 st2 Hinv1 Hvs E2) as (Hinv2 & Hsub2 & Hr2).
    intros [= <- <-]. split_and!; [done | by etrans |].
    constructor; [by eapply rename_mono | done].
Qed.

(** [copy_all] goes through when [copy] does for every member, in every
    state met on the way. *)
Lemma copy_all_total copy (Hcopy : copies h0 copy) P vs :
  forall st,
    inv h0 P st -> Forall (fun v => val_ok (length h0) v = true) vs ->
    (forall v st', v ∈ vs -> inv h0 P st' -> st.1 ⊆ st'.1 ->
                   is_Some (copy v st')) ->
    is_Some (copy_all copy vs st).
Proof.
  induction vs as [|v vs IH]; intros st Hinv Hok Hall; simpl; [eauto |].
  apply Forall_cons in Hok as [Hv Hvs].
  destruct (Hall v st) as [[v1 st1] E1]; [apply list_elem_of_here | done.. |].
  rewrite E1.
  destruct (Hcopy P v st v1 st1 Hinv Hv E1) as (Hinv1 & Hsub1 & _).
  destruct (IH st1) as [[vs2 st2] E2]; [done | done | | rewrite E2; eauto].
  intros v' st' Hin Hinv' Hsub'. apply Hall; [| done | by etrans].
  by apply list_elem_of_further.
Qed.

Lemma inv_enter P (m : memo) (h : heap) (l : loc) (o : obj) :
  inv h0 P (m, h) -> m !! l = None -> l < length h0 ->
  inv h0 (fun a => P a \/ a = l) (<[l := length h]> m, h ++ [blank o]).
Proof.
  intros [[ext Hext] Hrange Hinj Hdone Honto] Hl Hlt. simpl in *.
  split; simpl.
  - exists (ext ++ [blank o]). by rewrite Hext, <- app_assoc.
  - intros a b Hab. rewrite length_app. simpl.
    destruct (decide (l = a)) as [<-|Hne].
    + rewrite lookup_insert_eq in Hab. injection Hab as <-.
      rewrite Hext, length_app. lia.
    + rewrite lookup_insert_ne in Hab by done.
      destruct (Hrange _ _ Hab). lia.
  - intros a a' b Ha Ha'.
    destruct (decide (l = a)) as [<-|Hne], (decide (l = a')) as [<-|Hne'];
      [done | | |].
    + rewrite lookup_insert_eq in Ha. injection Ha as <-.
      rewrite lookup_insert_ne in Ha' by done.
      destruct (Hrange _ _ Ha'). lia.
    + rewrite lookup_insert_eq in Ha'. injection Ha' as <-.
      rewrite lookup_insert_ne in Ha by done.
      destruct (Hrange _ _ Ha). lia.
    + rewrite lookup_insert_ne in Ha, Ha' by done. eauto.
  - intros a b Hab HnP.
    assert (l <> a) as Hne by (intros ->; apply HnP; by right).
    rewrite lookup_insert_ne in Hab by done.
    destruct (Hdone a b Hab) as (x & x' & Hx & Hr & Hb); [tauto |].
    exists x, x'. split; [done |]. split.
    + eapply rename_obj_mono; [| done]. by apply insert_subseteq.
    + rewrite lookup_app_l; [done |]. by eapply lookup_lt_Some.
  - intros b. rewrite length_app. simpl. intros Hb.
    destruct (decide (b = length h)) as [->|Hne].
    + exists l. apply lookup_insert_eq.
    + destruct (Honto b) as [a Hab]; [lia |]. exists a.
      rewrite lookup_insert_ne; [done | congruence].
Qed.

Lemma inv_leave P (m : memo) (h : heap) (l l' : loc) (o o' : obj) :
  inv h0 (fun a => P a \/ a = l) (m, h) ->
  m !! l = Some l' -> h0 !! l = Some o -> rename_obj m o = Some o' ->
  inv h0 P (m, <[l' := o']> h).
Proof.
  intros [[ext Hext] Hrange Hinj Hdone Honto] Hl Ho Hr. simpl in *.
  destruct (Hrange _ _ Hl) as [Hlt Hl'].
  split; simpl.
  - exists (<[l' - length h0 := o']> ext).
    rewrite Hext, insert_app_r_alt by lia. done.
  - intros a b Hab. rewrite length_insert. eauto.
  - done.
  - intros a b Hab HnP. destruct (decide (a = l)) as [->|Hne].
    + assert (b = l') as -> by congruence.
      exists o, o'. repeat split; [done | done |].
      by rewrite list_lookup_insert_eq by lia.
    + destruct (Hdone a b Hab) as (x & x' & Hx & Hrx & Hb); [tauto |].
      exists x, x'. repeat split; [done | done |].
      rewrite list_lookup_insert_ne; [done |].
      intros ->. apply Hne. eauto.
  - intros b. rewrite length_insert. apply Honto.
Qed.

Lemma rename_obj_children (m : memo) (o : obj) (vs : list val) :
  Forall2 (fun v v' => rename m v = Some v') (children o) vs ->
  rename_obj m o = Some (rebuild o vs).
Proof. intros H. unfold rename_obj. by rewrite (mapM_Some_2 _ _ _ H). Qed.

Lemma deepcopy_go_sound (n : nat) : copies h0 (deepcopy_go n).
Proof.
  induction n as [|n IH]; intros P v [m h] v' st' Hinv Hv;
    (destruct v as [| | | |l];
     try (intros [= <- <-]; split_and!; [done | done | reflexivity]));
    simpl in Hv; apply bool_decide_eq_true in Hv; simpl;
    destruct (m !! l) as [l'|] eqn:Hl;
    try (intros [= <- <-]; simpl; rewrite Hl;
         split_and!; [done | done | reflexivity]);
    try done.
  destruct (lookup_lt_is_Some_2 h0 l Hv) as [o Ho].
  assert (h !! l = Some o) as ->.
  { destruct (inv_ext _ _ _ Hinv) as [ext Hext]. simpl in Hext.
    rewrite Hext. by apply lookup_app_l_Some. }
  pose proof (inv_enter P m h l o Hinv Hl Hv) as Hinv1.
  destruct (copy_all (deepcopy_go n) (children o) _)
    as [[vs [m2 h2]]|] eqn:E; [| done].
  assert (Forall (fun v => val_ok (length h0) v = true) (children o)) as Hok.
  { apply Forall_forall. intros v Hin. by eapply closed_lookup. }
  destruct (copy_all_sound _ IH _ (children o) _ _ _ Hinv1 Hok E)
    as (Hinv2 & Hsub & Hr).
  simpl in *. intros [= <- <-].
  assert (m2 !! l = Some (length h)) as Hl2.
  { eapply lookup_weaken; [| exact Hsub]. apply lookup_insert_eq. }
  split.
  - eapply inv_leave; eauto using rename_obj_children.
  - split; simpl; [| by rewrite Hl2].
    etrans; [| exact Hsub]. by apply insert_subseteq.
Qed.

(** A value nested within the fuel is copied. *)
Lemma deepcopy_go_total (n : nat) :
  forall P seen v st,
    inv h0 P st ->
    (forall a, a ∈ seen -> is_Some (st.1 !! a)) ->
    nested_within n seen h0 v = true ->
    is_Some (deepcopy_go n v st).
Proof.
  induction n as [|n IH]; intros P seen v [m h] Hinv Hseen Hnest;
    (destruct v as [| | | |l]; [simpl; eauto.. |]); simpl in *;
    destruct (m !! l) as [l'|] eqn:Hl; eauto;
    (rewrite bool_decide_eq_false_2 in Hnest;
     [| intros Hin; destruct (Hseen l Hin) as [x Hx]; congruence]);
    [done |].
  destruct (h0 !! l) as [o|] eqn:Ho; [| done].
  assert (l < length h0) as Hlt by (by eapply lookup_lt_Some).
  assert (h !! l = Some o) as ->.
  { destruct (inv_ext _ _ _ Hinv) as [ext Hext]. simpl in Hext.
    rewrite Hext. by apply lookup_app_l_Some. }
  pose proof (inv_enter P m h l o Hinv Hl Hlt) as Hinv1.
  destruct (copy_all_total _ (deepcopy_go_sound n) _ (children o) _ Hinv1)
    as [[vs st2] ->]; [| | eauto].
  { apply Forall_forall. intros v Hin. by eapply closed_lookup. }
  intros v st' Hin Hinv' Hsub. simpl in Hsub.
  apply (IH (fun a => P a \/ a = l) (l :: seen)); [done | |].
  - intros a [->|Ha]%elem_of_cons.
    + exists (length h). eapply lookup_weaken; [| exact Hsub].
      apply lookup_insert_eq.
    + destruct (Hseen a Ha) as [x Hx]. exists x.
      eapply lookup_weaken; [| exact Hsub].
      rewrite lookup_insert_ne; [done | congruence].
  - rewrite forallb_forall in Hnest. apply Hnest. by apply list_elem_of_In.
Qed.

Lemma inv_start : inv h0 (fun _ => False) (∅, h0).
Proof.
  split; simpl.
  - exists []. by rewrite app_nil_r.
  - intros a b Hab. by rewrite lookup_empty in Hab.
  - intros a a' b Hab. by rewrite lookup_empty in Hab.
  - intros a b Hab. by rewrite lookup_empty in Hab.
  - intros b Hb. lia.
Qed.

(** [deepcopy] either copies, or raises [RecursionError] and leaves the
    world as it was; it raises only on a value nested deeper than the
    interpreter allows. *)
Lemma deepcopy_cases `{Interpreter} (out : list string) (x : val) :
  val_ok (length h0) x = true ->
  (deepcopy x (World h0 out) = (Raise RecursionError, World h0 out)
   /\ nested_within recursion_depth [] h0 x = false)
  \/ (exists y m h,
        deepcopy x (World h0 out) = (Ok y, World h out)
        /\ copied_heap h0 m h /\ rename m x = Some y).
Proof.
  intros Hx. unfold deepcopy. simpl.
  destruct (deepcopy_go recursion_depth x (∅, h0)) as [[y [m h]]|] eqn:Hgo.
  - right. exists y, m, h.
    destruct (deepcopy_go_sound _ _ x _ _ _ inv_start Hx Hgo)
      as (Hinv & _ & Hr).
    done.
  - left. split; [done |].
    destruct (nested_within recursion_depth [] h0 x) eqn:Hnest; [| done].
    destruct (deepcopy_go_total recursion_depth (fun _ => False) [] x
                (∅, h0) inv_start) as [r Hr]; [| done | congruence].
    intros a Ha. by apply elem_of_nil in Ha.
Qed.

Lemma deepcopy_spec `{Interpreter} (out : list string) (x : val) :
  val_ok (length h0) x = true ->
  nested_within recursion_depth [] h0 x = true ->
  exists y m h,
    deepcopy x (World h0 out) = (Ok y, World h out)
    /\ copied_heap h0 m h /\ rename m x = Some y.
Proof.
  intros Hx Hnest.
  destruct (deepcopy_cases out x Hx) as [[_ Hno] | Hyes]; [congruence | done].
Qed.

Lemma copied_heap_frame (m : memo) (h : heap) (a : loc) (o : obj) :
  copied_heap h0 m h -> h0 !! a = Some o -> h !! a = Some o.
Proof.
  intros [[ext Hext] _ _ _ _] Ha. simpl in Hext.
  rewrite Hext. by apply lookup_app_l_Some.
Qed.

(** An object made by the copy holds references to copies only. *)
Lemma copied_heap_new_refs (m : memo) (h : heap) (b c : loc) (o : obj) :
  copied_heap h0 m h -> length h0 <= b -> h !! b = Some o ->
  VRef c ∈ children o -> exists a, m !! a = Some c.
Proof.
  intros Hinv Hb Ho Hc.
  destruct (inv_onto _ _ _ Hinv b) as [a Hab].
  { split; [done |]. by eapply lookup_lt_Some. }
  destruct (inv_done _ _ _ Hinv a b Hab) as (x & x' & Hx & Hr & Hx'); [tauto |].
  simpl in *. assert (x' = o) as -> by congruence.
  unfold rename_obj in Hr.
  destruct (mapM (rename m) (children x)) as [vs|] eqn:E; [| done].
  injection Hr as <-. apply mapM_Some_1 in E.
  rewrite (children_rebuild x vs) in Hc by (by eapply Forall2_length).
  by eapply renamed_ref.
Qed.

End spec.

(** A dict that holds a list that holds the dict and itself: the copy has
    the same shape, at new locations. *)
Example deepcopy_of_a_cycle :
  @deepcopy default_depth (VRef 0)
    (World [ODict [("id", VInt 3); ("more", VRef 1)];
            OList [VRef 0; VRef 1]] [])
  = (Ok (VRef 2),
     World [ODict [("id", VInt 3); ("more", VRef 1)];
            OList [VRef 0; VRef 1];
            ODict [("id", VInt 3); ("more", VRef 3)];
            OList [VRef 2; VRef 3]] []).
Proof. reflexivity. Qed.

(** An object met twice is copied once. *)
Example deepcopy_keeps_sharing :
  @deepcopy default_depth (VRef 0)
    (World [OList [VRef 1; VRef 1]; ODict [("k", VStr "v")]] [])
  = (Ok (VRef 2),
     World [OList [VRef 1; VRef 1]; ODict [("k", VStr "v")];
            OList [VRef 3; VRef 3]; ODict [("k", VStr "v")]] []).
Proof. reflexivity. Qed.

End CopyFacts.

(** ** The policy interceptor *)

Module InterceptorFacts.
Import Py Datetime Agent.

Section facts.
Context `{IsoFormat}.

Lemma inspected tool args v1 v2 w :
  name tool = "update-hotel" ->
  args !! "checkin_date" = Some v1 -> args !! "checkout_date" = Some v2 ->
  enfore_business_rules tool args w =
    match fromisoformat v1 with
    | Raise e => (Raise e, passed tool w)
    | Ok start =>
        match fromisoformat v2 with
        | Raise e => (Raise e, passed tool w)
        | Ok end_ =>
            match datetime_sub end_ start with
            | Raise e => (Raise e, passed tool w)
            | Ok delta =>
                if (14 <? days delta)%Z
                then (Ok (VRef (length (heap_of w))), blocked tool w)
                else (Ok VNone, passed tool w)
            end
        end
    end.
Proof.
  intros Hn H1 H2. unfold enfore_business_rules, bind, print. simpl.
  unfold has_key, getitem.
  rewrite (bool_decide_eq_true_2 _ Hn), H1, H2. simpl.
  unfold lift, ret. destruct (fromisoformat v1) as [start|e]; [| reflexivity].
  destruct (fromisoformat v2) as [end_|e]; [| reflexivity].
  destruct (datetime_sub end_ start) as [delta|e]; [| reflexivity].
  destruct (14 <? days delta)%Z; [| reflexivity].
  unfold new_dict, alloc, blocked, passed, policy_line. simpl.
  by rewrite <- app_assoc.
Qed.

Example toordinal_2025_01_18 :
  toordinal <$> iso_extended "2025-01-18" = Some 739269%Z.
Proof. reflexivity. Qed.

Example iso_extended_rejects :
  iso_extended "2025-02-29" = None /\ iso_extended "2025-1-18" = None
  /\ iso_extended "18/01/2025" = None.
Proof. repeat split. Qed.

(** The fraction of a day is dropped towards minus infinity, and a naive
    value is not subtracted from an aware one. *)
Example datetime_sub_examples :
  (d1 ← iso_extended "2025-01-18T12:00:00";
   d2 ← iso_extended "2025-02-01T11:59:59";
   Some (datetime_sub d2 d1)) = Some (Ok (mk_timedelta 13 86399 0))
  /\ (d1 ← iso_extended "2025-01-18T12:00:00";
      d2 ← iso_extended "2025-01-18T11:00:00";
      Some (datetime_sub d2 d1)) = Some (Ok (mk_timedelta (-1) 82800 0))
  /\ (d1 ← iso_extended "2025-01-18T12:00:00+05:00";
      d2 ← iso_extended "2025-01-19T11:00:00";
      Some (datetime_sub d2 d1)) = Some (Raise TypeError).
Proof. repeat split. Qed.

(** Two calendar days are subtracted day number from day number. *)
Lemma calendar_date_sub d1 d2 :
  is_calendar_date d1 = true -> is_calendar_date d2 = true ->
  datetime_sub d2 d1 = Ok (mk_timedelta (toordinal d2 - toordinal d1) 0 0).
Proof.
  intros (h1 & m1 & s1 & u1 & o1)%bool_decide_eq_true
         (h2 & m2 & s2 & u2 & o2)%bool_decide_eq_true.
  unfold datetime_sub, seconds_of_day, new_timedelta.
  rewrite h1, m1, s1, u1, o1, h2, m2, s2, u2, o2. simpl.
  by rewrite Z.add_0_r.
Qed.

End facts.

End InterceptorFacts.

(** ** The response enricher *)

Module EnricherFacts.
Import Py PyFacts Copy CopyFacts Agent.

Section enricher.
Context `{Interpreter}.

Lemma enrich_response_unfold tool args v w :
  enrich_response tool args v w =
    match result_of (heap_of w) v with
    | Some r => enrich_result tool v r w
    | None => (Ok VNone, w)
    end.
Proof.
  unfold enrich_response, bind, isinstance_dict, get_heap, bind, ret.
  destruct v as [| | | |l]; simpl; try reflexivity.
  unfold dict_get, bind, get_heap.
  destruct (heap_of w !! l) as [[items|elems]|] eqn:E; simpl;
    rewrite ?E; reflexivity.
Qed.

Lemma enrich_result_none tool v r w :
  name tool <> "book-hotel" \/ is_str r = false
  \/ (exists text, r = VStr text /\ Str.contains "Error" text = true) ->
  enrich_result tool v r w = (Ok VNone, w).
Proof.
  intros Hcase. unfold enrich_result.
  destruct r as [| | |text|]; try reflexivity.
  destruct (Str.contains "Error" text) eqn:E; [reflexivity |]. simpl.
  destruct Hcase as [Hn | [Hs | (t & Ht & Hc)]].
  - by rewrite (bool_decide_eq_false_2 _ Hn).
  - done.
  - congruence.
Qed.

Lemma enrich_result_str tool s text w :
  name tool = "book-hotel" -> Str.contains "Error" text = false ->
  enrich_result tool (VStr s) (VStr text) w
  = (Ok (VStr (enriched_text 500 text)), w).
Proof.
  intros Hn Hc. unfold enrich_result.
  by rewrite Hc, (bool_decide_eq_true_2 _ Hn).
Qed.

End enricher.

(** The enriched text, spelled out. *)
Lemma enriched_text_500 text :
  enriched_text 500 text =
    "Booking Confirmed!" +:+ Str.nl
    +:+ " You earned 500 Loyalty Points with this stay." +:+ Str.nl +:+ Str.nl
    +:+ "System Details: " +:+ text.
Proof. reflexivity. Qed.

Lemma enriched_text_contains text :
  Str.contains "500" (enriched_text 500 text) = true
  /\ Str.contains text (enriched_text 500 text) = true.
Proof.
  split.
  - apply StrFacts.contains_spec.
    exists ("Booking Confirmed!" +:+ Str.nl +:+ " You earned "),
      (" Loyalty Points with this stay." +:+ Str.nl +:+ Str.nl
       +:+ "System Details: " +:+ text).
    reflexivity.
  - apply (StrFacts.contains_suffix
             ("Booking Confirmed!" +:+ Str.nl
              +:+ " You earned 500 Loyalty Points with this stay."
              +:+ Str.nl +:+ Str.nl +:+ "System Details: ")).
Qed.

(** *** Items of a dict and of its copy *)

Lemma items_set_elem k x items v :
  v ∈ (items_set k x items).*2 -> v = x \/ v ∈ items.*2.
Proof.
  induction items as [|[k' v'] rest IH]; simpl.
  - intros ->%list_elem_of_singleton. by left.
  - destruct (decide (k = k')); simpl.
    + intros [->|Hin]%elem_of_cons; [by left |].
      right. by apply list_elem_of_further.
    + intros [->|Hin]%elem_of_cons.
      * right. apply list_elem_of_here.
      * destruct (IH Hin); [by left |]. right. by apply list_elem_of_further.
Qed.


Lemma zip_keys_values (items : list (string * val)) (vs : list val) :
  length (items.*2) = length vs ->
  (zip (items.*1) vs).*1 = items.*1 /\ (zip (items.*1) vs).*2 = vs.
Proof.
  rewrite length_fmap. intros Hlen. split.
  - apply fst_zip. rewrite length_fmap. lia.
  - apply snd_zip. rewrite length_fmap. lia.
Qed.

Section enrich_mapping.
Context `{Interpreter}.

(** A successful booking result shaped as a mapping: the response is
    deep-copied and the copy's [result] is set, unless the response is
    nested deeper than the interpreter allows. *)
Lemma enrich_mapping_cases tool args l items text h out :
  name tool = "book-hotel" -> closed h = true ->
  h !! l = Some (ODict items) ->
  default (VStr "") (items_get "result" items) = VStr text ->
  Str.contains "Error" text = false ->
  (enrich_response tool args (VRef l) (World h out)
   = (Raise RecursionError, World h out)
   /\ nested_within recursion_depth [] h (VRef l) = false)
  \/ exists (m : memo) (l' : loc) (h1 : heap) (copied : list (string * val)),
       enrich_response tool args (VRef l) (World h out)
       = (Ok (VRef l'),
          World (<[l' := ODict (items_set "result"
                                  (VStr (enriched_text 500 text)) copied)]> h1)
                out)
       /\ copied_heap h m h1 /\ m !! l = Some l'
       /\ h1 !! l' = Some (ODict copied)
       /\ copied.*1 = items.*1
       /\ Forall2 (fun v v' => rename m v = Some v') (items.*2) (copied.*2).
Proof.
  intros Hn Hc Hl Hres Herr.
  assert (forall r,
            deepcopy (VRef l) (World h out) = r ->
            enrich_response tool args (VRef l) (World h out)
            = bind (fun _ => r)
                (fun modified_response =>
                   bind (dict_setitem modified_response "result"
                           (VStr (enriched_text 500 text)))
                     (fun _ => ret modified_response))
                (World h out)) as Hrun.
  { intros r <-. rewrite enrich_response_unfold. simpl. rewrite Hl, Hres.
    unfold enrich_result. rewrite Herr, (bool_decide_eq_true_2 _ Hn). simpl.
    unfold bind at 1. unfold isinstance_dict, bind, get_heap, ret. simpl.
    by rewrite Hl. }
  destruct (deepcopy_cases h Hc out (VRef l))
    as [[Hdc Hdeep] | (y & m & h1 & Hdc & Hcopy & Hr)].
  { simpl. apply bool_decide_eq_true. by eapply lookup_lt_Some. }
  { left. split; [| done]. rewrite (Hrun _ Hdc). reflexivity. }
  right. simpl in Hr. destruct (m !! l) as [l'|] eqn:Hml; [| done].
  injection Hr as <-.
  destruct (inv_done _ _ _ Hcopy l l' Hml) as (o & o' & Ho & Hro & Hl');
    [tauto |]. simpl in Hl'.
  rewrite Hl in Ho. injection Ho as <-.
  unfold rename_obj in Hro. simpl in Hro.
  destruct (mapM (rename m) (items.*2)) as [vs|] eqn:E; [| done].
  injection Hro as <-. apply mapM_Some_1 in E.
  destruct (zip_keys_values items vs) as [Hk Hv]; [by eapply Forall2_length |].
  exists m, l', h1, (zip (items.*1) vs).
  split; [| by rewrite Hv].
  rewrite (Hrun _ Hdc). unfold bind at 1.
  unfold dict_setitem, bind, get_heap, put_heap. simpl.
  by rewrite Hl'.
Qed.


End enrich_mapping.

End EnricherFacts.

(** ** The turn driver *)

Module DriverFacts.
Import Py Agent.

Lemma add_parts_join ps : forall acc,
  add_parts ps acc = acc +:+ Str.join (omap text ps).
Proof.
  induction ps as [|[[[|c t]|]] ps IH]; intros acc; simpl.
  - by rewrite StrFacts.app_empty_r.
  - by rewrite IH.
  - by rewrite IH, StrFacts.app_assoc.
  - by rewrite IH.
Qed.

Lemma add_event_join event acc :
  add_event event acc = acc +:+ Str.join (fragments event).
Proof.
  unfold add_event, fragments.
  destruct (content event) as [[r [[|p ps]|]]|]; simpl;
    rewrite ?StrFacts.app_empty_r; try reflexivity.
  apply (add_parts_join (p :: ps)).
Qed.

Lemma consume_then events tail : forall acc,
  consume (stream_then events tail) acc
  = consume tail (acc +:+ Str.join (flat_map fragments events)).
Proof.
  induction events as [|e events IH]; intros acc; simpl.
  - by rewrite StrFacts.app_empty_r.
  - by rewrite IH, add_event_join, StrFacts.join_app, StrFacts.app_assoc.
Qed.

Lemma run_chat_turn_unfold runner session_id user_id message_text w :
  run_chat_turn runner session_id user_id message_text w =
    match consume (run_async runner user_id session_id
                     (user_message message_text)) "" with
    | Ok response_text =>
        (Ok tt, World (heap_of w)
                  (stdout w ++ [user_line message_text;
                                "AI: " +:+ response_text]))
    | Raise e =>
        (Raise e, World (heap_of w) (stdout w ++ [user_line message_text]))
    end.
Proof.
  unfold run_chat_turn, bind, print, lift, user_message. simpl.
  destruct (consume _ _); simpl; [| reflexivity].
  by rewrite <- app_assoc.
Qed.

End DriverFacts.

(** ** Turns in which tools are called *)

Module LiveFacts.
Import Py Agent DriverFacts.

Lemma play_reaches runner p w events p' w' :
  Live.reaches runner p w events p' w' ->
  Live.play runner p w
  = (stream_then events (Live.play runner p' w').1,
     (Live.play runner p' w').2).
Proof.
  induction 1 as [p w | event rest w events p' w' _ IH
                  | tool args next w v w1 events p' w' Hcall _ IH]; simpl.
  - by destruct (Live.play runner p w).
  - by rewrite IH.
  - by rewrite Hcall, IH.
Qed.

Lemma live_turn_unfold runner session_id user_id message_text w :
  Live.run_chat_turn runner session_id user_id message_text w =
    let '(s, w') :=
      Live.run_async runner user_id session_id (user_message message_text)
        (World (heap_of w) (stdout w ++ [user_line message_text])) in
    match consume s "" with
    | Ok response_text =>
        (Ok tt, World (heap_of w') (stdout w' ++ ["AI: " +:+ response_text]))
    | Raise e => (Raise e, w')
    end.
Proof.
  unfold Live.run_chat_turn, bind, print, user_message, user_line. simpl.
  destruct (Live.run_async _ _ _ _ _) as [s w'].
  unfold lift. by destruct (consume s "").
Qed.

(** An exception of the interceptor is the outcome of the tool call: the
    tool is not invoked, the enricher is not called. *)
Lemma call_tool_before_raises runner tool args w e w' :
  Live.before_tool_callback runner tool args w = (Raise e, w') ->
  Live.call_tool runner tool args w = (Raise e, w').
Proof. intros Hb. unfold Live.call_tool, bind. by rewrite Hb. Qed.

Lemma play_without_tools runner p w :
  Live.calls_no_tool p = true ->
  Live.play runner p w = (Live.stream_of_plan p, w).
Proof.
  induction p as [| event rest IH | tool args next _ | e]; simpl;
    try done.
  intros Hq. by rewrite (IH Hq).
Qed.

(** When the model calls no tool in a turn, the turn is the turn of
    [Agent.run_chat_turn] over the stream of the events of the plan. *)
Lemma live_turn_without_tools runner session_id user_id message_text w :
  Live.calls_no_tool
    (Live.plan_for runner user_id session_id (user_message message_text))
  = true ->
  Live.run_chat_turn runner session_id user_id message_text w
  = run_chat_turn
      (mk_runner (fun u s c => Live.stream_of_plan (Live.plan_for runner u s c)))
      session_id user_id message_text w.
Proof.
  intros Hq. rewrite live_turn_unfold, run_chat_turn_unfold.
  unfold Live.run_async. rewrite (play_without_tools _ _ _ Hq). simpl.
  destruct (consume _ ""); [| reflexivity].
  by rewrite <- app_assoc.
Qed.

End LiveFacts.

(** ** Elapsed time, outcomes of the interceptor *)

Module FurtherFacts.
Import Py PyFacts Datetime Copy CopyFacts Agent Program.
Import InterceptorFacts EnricherFacts DriverFacts LiveFacts.

(** The [days] of a normalised [timedelta] are the whole days of the
    duration, rounded towards minus infinity. *)
Lemma new_timedelta_days (d s us : Z) :
  days (new_timedelta d s us)
  = (((d * 86400 + s) * 1000000 + us) / (1000000 * 86400))%Z.
Proof.
  unfold new_timedelta. simpl.
  rewrite <- Z.div_div by lia.
  rewrite Z.div_add_l by lia.
  rewrite <- Z.add_assoc, Z.div_add_l by lia.
  reflexivity.
Qed.

Lemma datetime_sub_days (d1 d2 : datetime) (delta : timedelta) :
  datetime_sub d2 d1 = Ok delta ->
  days delta = ((instant d2 - instant d1) / (1000000 * 86400))%Z.
Proof.
  unfold datetime_sub, instant.
  destruct (utcoffset d2) as [o2|], (utcoffset d1) as [o1|]; simpl;
    intros [= <-]; rewrite new_timedelta_days; f_equal; lia.
Qed.

Lemma subtracts_iff_same_kind (d1 d2 : datetime) :
  (is_Some (utcoffset d1) <-> is_Some (utcoffset d2)) ->
  exists delta, datetime_sub d2 d1 = Ok delta.
Proof.
  unfold datetime_sub. intros Hk.
  destruct (utcoffset d2) as [o2|] eqn:E2, (utcoffset d1) as [o1|] eqn:E1;
    eauto.
  - destruct Hk as [_ Hk]. destruct Hk as [x Hx]; [eauto | done].
  - destruct Hk as [Hk _]. destruct Hk as [x Hx]; [eauto | done].
Qed.

Section interceptor.
Context `{IsoFormat}.

(** When the guard of the interceptor is false. *)
Lemma not_inspected tool args w :
  name tool <> "update-hotel"
  \/ args !! "checkin_date" = None \/ args !! "checkout_date" = None ->
  enfore_business_rules tool args w = (Ok VNone, passed tool w).
Proof.
  intros Hcase. unfold enfore_business_rules, bind, print. simpl.
  assert (bool_decide (name tool = "update-hotel")
          && has_key args "checkin_date" && has_key args "checkout_date"
          = false) as ->; [| reflexivity].
  unfold has_key. destruct Hcase as [Hn | [Hn | Hn]].
  - by rewrite (bool_decide_eq_false_2 _ Hn).
  - rewrite Hn, andb_false_r. done.
  - rewrite Hn, andb_false_r. done.
Qed.

Lemma fromisoformat_raises (v : val) (e : exn) :
  fromisoformat v = Raise e -> e = ValueError \/ e = TypeError.
Proof.
  destruct v as [| | |s|]; simpl; try (intros [= <-]; by right).
  destruct (fromisoformat_str s); [done |]. intros [= <-]. by left.
Qed.

Lemma datetime_sub_raises (d1 d2 : datetime) (e : exn) :
  datetime_sub d2 d1 = Raise e -> e = TypeError.
Proof.
  unfold datetime_sub.
  destruct (utcoffset d2), (utcoffset d1); by intros [= <-].
Qed.

(** The only reference the interceptor returns is the replacement. *)
Lemma interceptor_returns_ref tool args w l w' :
  enfore_business_rules tool args w = (Ok (VRef l), w') ->
  l = length (heap_of w) /\ w' = blocked tool w.
Proof.
  destruct (decide (name tool = "update-hotel")) as [Hn|Hn];
    [| rewrite not_inspected by (by left); done].
  destruct (args !! "checkin_date") as [v1|] eqn:H1;
    [| rewrite not_inspected by (right; by left); done].
  destruct (args !! "checkout_date") as [v2|] eqn:H2;
    [| rewrite not_inspected by (right; by right); done].
  rewrite (inspected tool args v1 v2 w Hn H1 H2).
  destruct (fromisoformat v1) as [d1|e]; [| done].
  destruct (fromisoformat v2) as [d2|e]; [| done].
  destruct (datetime_sub d2 d1) as [delta|e]; [| done].
  destruct (14 <? days delta)%Z; [| done].
  by intros [= <- <-].
Qed.

(** The interceptor leaves one of two worlds. *)
Lemma interceptor_world tool args w :
  (enfore_business_rules tool args w).2 = passed tool w
  \/ (enfore_business_rules tool args w).2 = blocked tool w.
Proof.
  destruct (decide (name tool = "update-hotel")) as [Hn|Hn];
    [| rewrite not_inspected by (by left); by left].
  destruct (args !! "checkin_date") as [v1|] eqn:H1;
    [| rewrite not_inspected by (right; by left); by left].
  destruct (args !! "checkout_date") as [v2|] eqn:H2;
    [| rewrite not_inspected by (right; by right); by left].
  rewrite (inspected tool args v1 v2 w Hn H1 H2).
  destruct (fromisoformat v1) as [d1|e]; [| by left].
  destruct (fromisoformat v2) as [d2|e]; [| by left].
  destruct (datetime_sub d2 d1) as [delta|e]; [| by left].
  destruct (14 <? days delta)%Z; [by right | by left].
Qed.

End interceptor.

(** *** Well-formed stores *)

Lemma closed_intro (h : heap) :
  (forall b o v, h !! b = Some o -> v ∈ children o ->
                 val_ok (length h) v = true) ->
  closed h = true.
Proof.
  intros Hall. unfold closed. apply forallb_forall. intros o Ho.
  apply list_elem_of_In, list_elem_of_lookup in Ho as [b Hb].
  apply forallb_forall. intros v Hv. apply list_elem_of_In in Hv. eauto.
Qed.

Lemma val_ok_mono (n n' : nat) (v : val) :
  n <= n' -> val_ok n v = true -> val_ok n' v = true.
Proof.
  intros Hle. destruct v; simpl; try done.
  intros Hl%bool_decide_eq_true. apply bool_decide_eq_true. lia.
Qed.

Lemma closed_app (h : heap) (o : obj) :
  closed h = true ->
  (forall v, v ∈ children o -> val_ok (S (length h)) v = true) ->
  closed (h ++ [o]) = true.
Proof.
  intros Hc Ho. apply closed_intro. intros b x v Hb Hv.
  rewrite length_app. simpl. rewrite Nat.add_1_r.
  apply lookup_app_Some in Hb as [Hb | [_ Hb]].
  - apply (val_ok_mono (length h)); [lia |]. by eapply closed_lookup.
  - apply list_lookup_singleton_Some in Hb as [_ <-]. auto.
Qed.

(** The store after a deep copy and an assignment of a string to a key
    of the copy is well formed. *)
Lemma closed_after_copy (h h1 : heap) (m : memo) (l l' : loc)
    (copied : list (string * val)) (k t : string) :
  closed h = true -> copied_heap h m h1 ->
  m !! l = Some l' -> h1 !! l' = Some (ODict copied) ->
  closed (<[l' := ODict (items_set k (VStr t) copied)]> h1) = true.
Proof.
  intros Hc Hcopy Hml Hl'. apply closed_intro. intros b o v.
  rewrite length_insert.
  assert (forall c, (exists a, m !! a = Some c) -> c < length h1) as Himg.
  { intros c [a Hac].
    destruct (inv_range _ _ _ Hcopy a c Hac) as [_ [_ Hlt]]. exact Hlt. }
  assert (length h <= length h1) as Hlen.
  { destruct (inv_ext _ _ _ Hcopy) as [ext Hext]. simpl in Hext.
    rewrite Hext, length_app. lia. }
  assert (forall b o, length h <= b -> h1 !! b = Some o ->
            v ∈ children o -> val_ok (length h1) v = true) as Hnew.
  { intros b' o' Hb' Ho' Hv. destruct v as [| | | |c]; try done.
    apply bool_decide_eq_true, Himg. by eapply copied_heap_new_refs. }
  destruct (decide (b = l')) as [->|Hne].
  - rewrite list_lookup_insert_eq by (by eapply lookup_lt_Some).
    intros [= <-] Hv. simpl in Hv.
    apply items_set_elem in Hv as [-> | Hv]; [done |].
    apply (Hnew l' (ODict copied)); [| done | done].
    destruct (inv_range _ _ _ Hcopy l l' Hml) as [_ [Hge _]]. exact Hge.
  - rewrite list_lookup_insert_ne by done. intros Hb Hv.
    destruct (decide (b < length h)) as [Hlt|Hge].
    + destruct (lookup_lt_is_Some_2 h b Hlt) as [x Hx].
      rewrite (copied_heap_frame h m h1 b x Hcopy Hx) in Hb.
      injection Hb as <-.
      apply (val_ok_mono (length h)); [done |]. by eapply closed_lookup.
    + apply (Hnew b o); [lia | done | done].
Qed.

(** *** The marker of a failure and the enriched text *)

Lemma enriched_text_marker (text : string) :
  Str.contains "Error" (enriched_text 500 text) = Str.contains "Error" text.
Proof. reflexivity. Qed.

(** *** [main], step by step *)

Lemma main_unfold `{IsoFormat} `{Interpreter} env w tools w1 w2 :
  get_tools env w = (Ok tools, w1) ->
  create_session env "my_agent" "test-user" "test-session" w1 = (Ok tt, w2) ->
  main env w =
    let '(s1, w3) := answer (runner_of env tools) first_message w2 in
    match consume s1 "" with
    | Raise e => (Raise e, w3)
    | Ok r1 =>
        let '(s2, w4) :=
          answer (runner_of env tools) second_message
            (World (heap_of w3) (stdout w3 ++ ["AI: " +:+ r1; dashes])) in
        match consume s2 "" with
        | Raise e => (Raise e, w4)
        | Ok r2 =>
            close env (World (heap_of w4) (stdout w4 ++ ["AI: " +:+ r2]))
        end
    end.
Proof.
  intros Htools Hsession. unfold main. unfold bind at 1. rewrite Htools.
  unfold bind at 1. rewrite Hsession.
  unfold bind at 1. rewrite live_turn_unfold.
  unfold answer, runner_of.
  destruct (Live.run_async _ _ _ _ _) as [s1 w3].
  destruct (consume s1 "") as [r1|e]; [| reflexivity].
  unfold bind at 1. unfold print at 1.
  unfold bind at 1. rewrite live_turn_unfold. simpl.
  rewrite <- !app_assoc. simpl.
  destruct (Live.run_async _ _ _ _ _) as [s2 w4].
  by destruct (consume s2 "") as [r2|e].
Qed.

End FurtherFacts.

(** * The claims of the specification *)

Import Py PyFacts Datetime Copy CopyFacts Agent Program.
Import InterceptorFacts EnricherFacts DriverFacts LiveFacts.

(** ** Policy interceptor *)

(** C1, as amended.  For the tool "update-hotel" with both dates present
    and read as calendar days, the interceptor takes the difference in
    days, check-out minus check-in -- one less than the inclusive day
    span.  If the difference exceeds 14 it returns a new mapping whose
    result text contains "Error" and "Maximum stay duration is 14 days";
    if the difference is at most 14 it returns [None]. *)
Theorem C1_stay_duration_rule `{IsoFormat} tool args s1 s2 d1 d2 w :
  name tool = "update-hotel" ->
  args !! "checkin_date" = Some (VStr s1) ->
  args !! "checkout_date" = Some (VStr s2) ->
  fromisoformat_str s1 = Some d1 ->
  fromisoformat_str s2 = Some d2 ->
  is_calendar_date d1 = true ->
  is_calendar_date d2 = true ->
  let difference := (toordinal d2 - toordinal d1)%Z in
  inclusive_day_span d1 d2 = (difference + 1)%Z
  /\ ((14 < difference)%Z ->
      enfore_business_rules tool args w
      = (Ok (VRef (length (heap_of w))), blocked tool w)
      /\ heap_of (blocked tool w) !! length (heap_of w)
         = Some (ODict [("result", VStr error_result)])
      /\ Str.contains "Error" error_result = true
      /\ Str.contains "Maximum stay duration is 14 days" error_result = true)
  /\ ((difference <= 14)%Z ->
      enfore_business_rules tool args w = (Ok VNone, passed tool w)).
Proof.
  intros Hn H1 H2 Hs1 Hs2 Hd1 Hd2 difference.
  pose proof (inspected tool args _ _ w Hn H1 H2) as Hrun.
  simpl in Hrun. rewrite Hs1, Hs2, (calendar_date_sub d1 d2 Hd1 Hd2) in Hrun.
  simpl in Hrun. fold difference in Hrun.
  split; [reflexivity |]. split.
  - intros Hgt. apply Z.ltb_lt in Hgt. rewrite Hgt in Hrun.
    split; [exact Hrun |]. split; [| split; reflexivity].
    unfold blocked. simpl. by rewrite lookup_app_r, Nat.sub_diag.
  - intros Hle. apply Z.ltb_ge in Hle. by rewrite Hle in Hrun.
Qed.

(** C1 at check-in 2025-01-18 and check-out 2025-02-10, the second
    scenario of the specification: 23 days, blocked. *)
Lemma C1_stay_duration_rule_witness :
  let args : gmap string val :=
    {[ "checkin_date" := VStr "2025-01-18";
       "checkout_date" := VStr "2025-02-10" ]} in
  @enfore_business_rules iso_extended (mk_tool "update-hotel") args
    (World [] [])
  = (Ok (VRef 0),
     World [ODict [("result", VStr "Error: Maximum stay duration is 14 days.")]]
           ["POLICY CHECK: Intercepting 'update-hotel'";
            "BLOCKED: Stay too long"]).
Proof.
  intros args.
  refine (proj1 (proj1 (proj2
    (@C1_stay_duration_rule iso_extended (mk_tool "update-hotel") args
       "2025-01-18" "2025-02-10"
       (mk_datetime 2025 1 18 0 0 0 0 None)
       (mk_datetime 2025 2 10 0 0 0 0 None)
       (World [] []) _ _ _ _ _ _ _)) _)); reflexivity.
Defined.

(** The claim as written fails for a stay from 2025-01-01 to 2025-01-15:
    its inclusive day span is 15 days, which exceeds 14, and the
    interceptor returns [None]. *)
Lemma C1_inclusive_span_counterexample :
  let args : gmap string val :=
    {[ "checkin_date" := VStr "2025-01-01";
       "checkout_date" := VStr "2025-01-15" ]} in
  exists d1 d2,
    iso_extended "2025-01-01" = Some d1
    /\ iso_extended "2025-01-15" = Some d2
    /\ is_calendar_date d1 = true /\ is_calendar_date d2 = true
    /\ inclusive_day_span d1 d2 = 15%Z
    /\ (14 < inclusive_day_span d1 d2)%Z
    /\ @enfore_business_rules iso_extended (mk_tool "update-hotel") args
         (World [] [])
       = (Ok VNone, World [] ["POLICY CHECK: Intercepting 'update-hotel'"]).
Proof.
  intros args.
  exists (mk_datetime 2025 1 1 0 0 0 0 None),
         (mk_datetime 2025 1 15 0 0 0 0 None).
  repeat split; reflexivity.
Qed.

(** C4.  If the tool is not "update-hotel", or the arguments lack the
    check-in date, or lack the check-out date, the interceptor returns
    [None]: it only prints its policy-check line. *)
Theorem C4_interceptor_not_concerned `{IsoFormat} tool args w :
  name tool <> "update-hotel"
  \/ args !! "checkin_date" = None \/ args !! "checkout_date" = None ->
  enfore_business_rules tool args w = (Ok VNone, passed tool w).
Proof.
  intros Hcase. unfold enfore_business_rules, bind, print. simpl.
  assert (bool_decide (name tool = "update-hotel")
          && has_key args "checkin_date" && has_key args "checkout_date"
          = false) as ->; [| reflexivity].
  unfold has_key. destruct Hcase as [Hn | [Hn | Hn]].
  - by rewrite (bool_decide_eq_false_2 _ Hn).
  - rewrite Hn, andb_false_r. done.
  - rewrite Hn, andb_false_r. done.
Qed.

(** C4 for the booking tool called with a hotel id and no dates. *)
Lemma C4_interceptor_not_concerned_witness :
  @enfore_business_rules iso_extended (mk_tool "book-hotel")
    {[ "hotel_id" := VInt 3 ]} (World [] [])
  = (Ok VNone, World [] ["POLICY CHECK: Intercepting 'book-hotel'"]).
Proof.
  apply (@C4_interceptor_not_concerned iso_extended (mk_tool "book-hotel")
           {[ "hotel_id" := VInt 3 ]} (World [] [])).
  left. simpl. discriminate.
Defined.

(** C6.  For the tool "update-hotel" with both dates present, if the
    check-in or the check-out date is a string [fromisoformat] rejects,
    the interceptor raises: it returns neither [None] nor a replacement,
    and the exception is [ValueError], the date-parse error, whenever the
    check-in value is a string.  Nothing catches it: whenever a turn comes
    to call the tool with these arguments, the tool call, the stream of
    the runner and [run_chat_turn] end with this exception, right after
    the policy-check line; the tool is not invoked and the answer of the
    turn is not printed. *)
Theorem C6_malformed_date_raises `{IsoFormat} tool args v1 v2 :
  name tool = "update-hotel" ->
  args !! "checkin_date" = Some v1 ->
  args !! "checkout_date" = Some v2 ->
  malformed v1 \/ malformed v2 ->
  exists e,
    (is_str v1 = true -> e = ValueError)
    /\ (forall w, enfore_business_rules tool args w = (Raise e, passed tool w))
    /\ (forall after remote plan_for session_id user_id message_text
               events next w w',
          let runner :=
            Live.mk_runner enfore_business_rules after remote plan_for in
          Live.reaches runner
            (plan_for user_id session_id (user_message message_text))
            (World (heap_of w) (stdout w ++ [user_line message_text]))
            events (Live.Call tool args next) w' ->
          Live.call_tool runner tool args w' = (Raise e, passed tool w')
          /\ Live.run_chat_turn runner session_id user_id message_text w
             = (Raise e, passed tool w')).
Proof.
  intros Hn H1 H2 Hbad.
  assert (exists e,
            (is_str v1 = true -> e = ValueError)
            /\ forall w, enfore_business_rules tool args w
                         = (Raise e, passed tool w)) as (e & He & Hraise).
  { destruct v1 as [| | |s1|];
      try (exists TypeError; split; [done |]; intros w;
           by rewrite (inspected tool args _ v2 w Hn H1 H2)).
    destruct (fromisoformat_str s1) as [d1|] eqn:E1.
    - destruct Hbad as [Hbad | Hbad]; [simpl in Hbad; congruence |].
      destruct v2 as [| | |s2|]; simpl in Hbad; try done.
      exists ValueError. split; [done |]. intros w.
      rewrite (inspected tool args _ _ w Hn H1 H2). simpl.
      by rewrite E1, Hbad.
    - exists ValueError. split; [done |]. intros w.
      rewrite (inspected tool args _ v2 w Hn H1 H2). simpl. by rewrite E1. }
  exists e. split_and!; [done | done |].
  intros after remote plan_for session_id user_id message_text events next
         w w' runner Hreach.
  assert (Live.call_tool runner tool args w' = (Raise e, passed tool w'))
    as Hcall by (apply call_tool_before_raises, Hraise).
  split; [done |].
  rewrite live_turn_unfold. unfold Live.run_async.
  change (Live.plan_for runner) with plan_for.
  rewrite (play_reaches _ _ _ _ _ _ Hreach). simpl. rewrite Hcall. simpl.
  by rewrite consume_then.
Qed.

(** C6 for a turn in which the model, after a word to the user, updates a
    booking with a check-out date written with slashes. *)
Lemma C6_malformed_date_raises_witness :
  let args : gmap string val :=
    {[ "checkin_date" := VStr "2025-01-18";
       "checkout_date" := VStr "10/02/2025" ]} in
  let steps : Live.plan :=
    Live.Emit (says "One moment.")
      (Live.Call (mk_tool "update-hotel") args (fun _ => Live.Finish)) in
  let runner :=
    Live.mk_runner (@enfore_business_rules iso_extended)
      (@enrich_response default_depth)
      (fun _ _ => ret (VStr "updated")) (fun _ _ _ => steps) in
  exists e,
    e = ValueError
    /\ Live.run_chat_turn runner "test-session" "test-user" "Update it."
         (World [] [])
       = (Raise e,
          World [] [user_line "Update it.";
                    "POLICY CHECK: Intercepting 'update-hotel'"]).
Proof.
  intros args steps runner.
  destruct (@C6_malformed_date_raises iso_extended (mk_tool "update-hotel")
              args (VStr "2025-01-18") (VStr "10/02/2025"))
    as (e & He & _ & Hturn); try reflexivity.
  { right. reflexivity. }
  exists e. split; [by apply He |].
  refine (proj2 (Hturn (@enrich_response default_depth)
                   (fun _ _ => ret (VStr "updated")) (fun _ _ _ => steps)
                   "test-session" "test-user" "Update it."
                   [says "One moment."] (fun _ => Live.Finish)
                   (World [] []) (World [] [user_line "Update it."]) _)).
  apply Live.reaches_emit, Live.reaches_here.
Defined.

(** C8.  The interceptor does not compare the two dates: for the tool
    "update-hotel" with both dates present and read, whenever the days of
    check-out minus check-in are at most 14 -- zero and negative
    differences included -- it returns [None]. *)
Theorem C8_no_date_ordering_check `{IsoFormat}
    tool args v1 v2 d1 d2 delta w :
  name tool = "update-hotel" ->
  args !! "checkin_date" = Some v1 ->
  args !! "checkout_date" = Some v2 ->
  fromisoformat v1 = Ok d1 ->
  fromisoformat v2 = Ok d2 ->
  datetime_sub d2 d1 = Ok delta ->
  (days delta <= 14)%Z ->
  enfore_business_rules tool args w = (Ok VNone, passed tool w).
Proof.
  intros Hn H1 H2 Hd1 Hd2 Hsub Hle.
  rewrite (inspected tool args v1 v2 w Hn H1 H2), Hd1, Hd2, Hsub.
  apply Z.ltb_ge in Hle. by rewrite Hle.
Qed.

(** C8 for a check-out 23 days before the check-in. *)
Lemma C8_no_date_ordering_check_witness :
  let args : gmap string val :=
    {[ "checkin_date" := VStr "2025-02-10";
       "checkout_date" := VStr "2025-01-18" ]} in
  @enfore_business_rules iso_extended (mk_tool "update-hotel") args
    (World [] [])
  = (Ok VNone, World [] ["POLICY CHECK: Intercepting 'update-hotel'"]).
Proof.
  intros args.
  refine (@C8_no_date_ordering_check iso_extended (mk_tool "update-hotel")
            args (VStr "2025-02-10") (VStr "2025-01-18")
            (mk_datetime 2025 2 10 0 0 0 0 None)
            (mk_datetime 2025 1 18 0 0 0 0 None)
            (mk_timedelta (-23) 0 0) (World [] []) _ _ _ _ _ _ _);
    try reflexivity.
  simpl. lia.
Defined.

(** ** Response enricher *)




(** C3.  The enricher returns [None], and changes nothing, when the tool
    is not "book-hotel", or the result text contains "Error", or the
    response is neither a mapping nor a string. *)
Theorem C3_enricher_returns_nothing `{Interpreter}
    tool args tool_response w :
  name tool <> "book-hotel"
  \/ (exists text, result_of (heap_of w) tool_response = Some (VStr text)
                   /\ Str.contains "Error" text = true)
  \/ (is_dict (heap_of w) tool_response = false
      /\ is_str tool_response = false) ->
  enrich_response tool args tool_response w = (Ok VNone, w).
Proof.
  intros Hcase. rewrite enrich_response_unfold.
  destruct (result_of (heap_of w) tool_response) as [r|] eqn:Hr;
    [| reflexivity].
  apply enrich_result_none. destruct Hcase as [Hn | [(t & Ht & Hc) | [Hd Hs]]].
  - by left.
  - right. right. exists t. split; [congruence | done].
  - destruct tool_response as [| | | |l]; simpl in *; try done.
    destruct (heap_of w !! l) as [[items|elems]|]; done.
Qed.

(** C3 for a booking that the tool answered with an error. *)
Lemma C3_enricher_returns_nothing_witness :
  let w := World [ODict [("result", VStr "Error: hotel 3 is full")]] [] in
  @enrich_response default_depth (mk_tool "book-hotel") ∅ (VRef 0) w
  = (Ok VNone, w).
Proof.
  intros w.
  apply (@C3_enricher_returns_nothing default_depth
           (mk_tool "book-hotel") ∅ (VRef 0) w).
  right. left. exists "Error: hotel 3 is full". split; reflexivity.
Defined.

(** C5.  For the tool "book-hotel" and a response that is a string with
    no "Error" in it, the enricher returns a string: "Booking Confirmed!"
    comes first, then the bonus of 500 Loyalty Points, and the original
    text comes last, after "System Details: ". *)
Theorem C5_enrich_bare_string `{Interpreter} tool args text w :
  name tool = "book-hotel" ->
  Str.contains "Error" text = false ->
  enrich_response tool args (VStr text) w
  = (Ok (VStr (enriched_text 500 text)), w)
  /\ enriched_text 500 text
     = "Booking Confirmed!" +:+ Str.nl
       +:+ " You earned 500 Loyalty Points with this stay."
       +:+ Str.nl +:+ Str.nl +:+ "System Details: " +:+ text
  /\ Str.contains "500 Loyalty Points" (enriched_text 500 text) = true
  /\ Str.contains text (enriched_text 500 text) = true.
Proof.
  intros Hn Herr. split_and!.
  - rewrite enrich_response_unfold. simpl. by apply enrich_result_str.
  - reflexivity.
  - apply StrFacts.contains_spec.
    exists ("Booking Confirmed!" +:+ Str.nl +:+ " You earned "),
      (" with this stay." +:+ Str.nl +:+ Str.nl
       +:+ "System Details: " +:+ text).
    reflexivity.
  - apply enriched_text_contains.
Qed.

(** C5 for a one-line confirmation. *)
Lemma C5_enrich_bare_string_witness :
  @enrich_response default_depth (mk_tool "book-hotel") ∅
    (VStr "Hotel 3 booked") (World [] [])
  = (Ok (VStr (enriched_text 500 "Hotel 3 booked")), World [] []).
Proof.
  refine (proj1 (@C5_enrich_bare_string default_depth
                   (mk_tool "book-hotel") ∅
                   "Hotel 3 booked" (World [] []) _ _)); reflexivity.
Defined.

(** C9.  When the response is a mapping whose [result] is there and is
    not a string, the enricher returns [None], whatever the tool. *)
Theorem C9_result_field_not_a_string `{Interpreter}
    tool args l items v w :
  heap_of w !! l = Some (ODict items) ->
  items_get "result" items = Some v ->
  is_str v = false ->
  enrich_response tool args (VRef l) w = (Ok VNone, w).
Proof.
  intros Hl Hres Hs. rewrite enrich_response_unfold. simpl.
  rewrite Hl, Hres. simpl. apply enrich_result_none. right. by left.
Qed.

(** C9 for the booking tool and a [result] that is a number. *)
Lemma C9_result_field_not_a_string_witness :
  let w := World [ODict [("result", VInt 7)]] [] in
  @enrich_response default_depth (mk_tool "book-hotel") ∅ (VRef 0) w
  = (Ok VNone, w).
Proof.
  intros w.
  apply (@C9_result_field_not_a_string default_depth
           (mk_tool "book-hotel") ∅ 0
           [("result", VInt 7)] (VInt 7) w); reflexivity.
Defined.




(** ** Turn driver *)

(** C7.  When the runner's stream is a finite sequence of events, the
    driver prints the user's line and then one line, "AI: " followed by
    the texts of all the parts of all the events, joined in the order of
    arrival; an event with no content or no parts adds nothing. *)
Theorem C7_response_is_concatenation
    runner session_id user_id message_text events w :
  run_async runner user_id session_id (user_message message_text)
  = stream_of events ->
  run_chat_turn runner session_id user_id message_text w
  = (Ok tt,
     World (heap_of w)
       (stdout w ++ [user_line message_text;
                     "AI: " +:+ Str.join (flat_map fragments events)])).
Proof.
  intros Hstream. rewrite run_chat_turn_unfold, Hstream.
  unfold stream_of. rewrite consume_then. reflexivity.
Qed.

(** C7 for three events: one with no content, one with the parts "a",
    no text, "bc", and one with no parts. *)
Lemma C7_response_is_concatenation_witness :
  let events :=
    [mk_event None;
     mk_event (Some (mk_content None
                       (Some [mk_part (Some "a"); mk_part None;
                              mk_part (Some "bc")])));
     mk_event (Some (mk_content None None))] in
  run_chat_turn (mk_runner (fun _ _ _ => stream_of events)) "s" "u" "hi"
    (World [] [])
  = (Ok tt, World [] [user_line "hi"; "AI: abc"]).
Proof.
  intros events.
  apply (C7_response_is_concatenation
           (mk_runner (fun _ _ _ => stream_of events)) "s" "u" "hi" events
           (World [] [])).
  reflexivity.
Defined.

(** * Further properties of the code *)

Import Program FurtherFacts.

(** ** Policy interceptor *)

(** X1.  Whatever the tool, the arguments and the world, the interceptor
    ends in one of three ways: it returns [None]; it returns the
    replacement mapping, a new object; or it raises, which happens for the
    tool "update-hotel" with both dates present only, and then with
    [ValueError] or [TypeError] -- never [KeyError].  The store it was
    given is part of the store it leaves, unchanged, and the policy-check
    line is printed in every case. *)
Theorem X1_interceptor_outcomes `{IsoFormat} tool args w :
  enfore_business_rules tool args w = (Ok VNone, passed tool w)
  \/ (enfore_business_rules tool args w
      = (Ok (VRef (length (heap_of w))), blocked tool w)
      /\ name tool = "update-hotel"
      /\ is_Some (args !! "checkin_date")
      /\ is_Some (args !! "checkout_date"))
  \/ (exists e,
        enfore_business_rules tool args w = (Raise e, passed tool w)
        /\ (e = ValueError \/ e = TypeError)
        /\ name tool = "update-hotel"
        /\ is_Some (args !! "checkin_date")
        /\ is_Some (args !! "checkout_date")).
Proof.
  destruct (decide (name tool = "update-hotel")) as [Hn|Hn];
    [| left; apply not_inspected; by left].
  destruct (args !! "checkin_date") as [v1|] eqn:H1;
    [| left; apply not_inspected; right; by left].
  destruct (args !! "checkout_date") as [v2|] eqn:H2;
    [| left; apply not_inspected; right; by right].
  rewrite (inspected tool args v1 v2 w Hn H1 H2).
  destruct (fromisoformat v1) as [d1|e] eqn:E1.
  - destruct (fromisoformat v2) as [d2|e] eqn:E2.
    + destruct (datetime_sub d2 d1) as [delta|e] eqn:E3.
      * destruct (14 <? days delta)%Z; [| by left].
        right. left. eauto.
      * right. right. exists e. apply datetime_sub_raises in E3. eauto 10.
    + right. right. exists e. apply fromisoformat_raises in E2. eauto 10.
  - right. right. exists e. apply fromisoformat_raises in E1. eauto 10.
Qed.

(** X2.  For the tool "update-hotel" with both dates read, two naive or
    two aware, the call is blocked exactly when the check-out is fifteen
    whole days or more after the check-in, hours, seconds and UTC offsets
    counted: 14 days and 23 hours pass. *)
Theorem X2_blocked_from_fifteen_days `{IsoFormat}
    tool args v1 v2 d1 d2 w :
  name tool = "update-hotel" ->
  args !! "checkin_date" = Some v1 ->
  args !! "checkout_date" = Some v2 ->
  fromisoformat v1 = Ok d1 ->
  fromisoformat v2 = Ok d2 ->
  (is_Some (utcoffset d1) <-> is_Some (utcoffset d2)) ->
  enfore_business_rules tool args w
  = if (fifteen_days <=? instant d2 - instant d1)%Z
    then (Ok (VRef (length (heap_of w))), blocked tool w)
    else (Ok VNone, passed tool w).
Proof.
  intros Hn H1 H2 Hd1 Hd2 Hkind.
  destruct (subtracts_iff_same_kind d1 d2 Hkind) as [delta Hsub].
  rewrite (inspected tool args v1 v2 w Hn H1 H2), Hd1, Hd2, Hsub.
  rewrite (datetime_sub_days d1 d2 delta Hsub).
  set (t := (instant d2 - instant d1)%Z).
  assert ((14 <? t / (1000000 * 86400)) = (fifteen_days <=? t))%Z as ->;
    [| reflexivity].
  unfold fifteen_days.
  destruct (Z.leb_spec (15 * 86400 * 1000000) t) as [Hle|Hlt].
  - apply Z.ltb_lt.
    assert (15 <= t / (1000000 * 86400))%Z; [| lia].
    apply Z.div_le_lower_bound; lia.
  - apply Z.ltb_ge.
    assert (t / (1000000 * 86400) < 15)%Z; [| lia].
    apply Z.div_lt_upper_bound; lia.
Qed.

(** X2 for a check-out 14 days and 23 hours after the check-in. *)
Lemma X2_blocked_from_fifteen_days_witness :
  let args : gmap string val :=
    {[ "checkin_date" := VStr "2025-01-01T12:00:00";
       "checkout_date" := VStr "2025-01-16T11:00:00" ]} in
  @enfore_business_rules iso_extended (mk_tool "update-hotel") args
    (World [] [])
  = (Ok VNone, World [] ["POLICY CHECK: Intercepting 'update-hotel'"]).
Proof.
  intros args.
  refine (@X2_blocked_from_fifteen_days iso_extended
            (mk_tool "update-hotel") args
            (VStr "2025-01-01T12:00:00") (VStr "2025-01-16T11:00:00")
            (mk_datetime 2025 1 1 12 0 0 0 None)
            (mk_datetime 2025 1 16 11 0 0 0 None)
            (World [] []) _ _ _ _ _ _); reflexivity.
Defined.

(** X3.  For the tool "update-hotel" with both dates present, a date that
    is not a string -- [None], a number -- makes the interceptor raise
    [TypeError]: the check-in is read first, the check-out only once the
    check-in has been read. *)
Theorem X3_date_not_a_string `{IsoFormat} tool args v1 v2 w :
  name tool = "update-hotel" ->
  args !! "checkin_date" = Some v1 ->
  args !! "checkout_date" = Some v2 ->
  is_str v1 = false
  \/ ((exists d1, fromisoformat v1 = Ok d1) /\ is_str v2 = false) ->
  enfore_business_rules tool args w = (Raise TypeError, passed tool w).
Proof.
  intros Hn H1 H2 Hcase.
  rewrite (inspected tool args v1 v2 w Hn H1 H2).
  destruct Hcase as [Hs | [[d1 Hd1] Hs]].
  - by destruct v1.
  - rewrite Hd1. by destruct v2.
Qed.

(** X3 for a check-in that is [None]. *)
Lemma X3_date_not_a_string_witness :
  let args : gmap string val :=
    {[ "checkin_date" := VNone; "checkout_date" := VStr "2025-02-10" ]} in
  @enfore_business_rules iso_extended (mk_tool "update-hotel") args
    (World [] [])
  = (Raise TypeError, World [] ["POLICY CHECK: Intercepting 'update-hotel'"]).
Proof.
  intros args.
  refine (@X3_date_not_a_string iso_extended (mk_tool "update-hotel") args
            VNone (VStr "2025-02-10") (World [] []) _ _ _ _);
    try reflexivity.
  by left.
Defined.

(** X4.  For the tool "update-hotel" with both dates read, one of them
    with a UTC offset and the other without, the interceptor raises
    [TypeError]: the call is neither blocked nor let through. *)
Theorem X4_naive_and_aware_dates `{IsoFormat} tool args v1 v2 d1 d2 w :
  name tool = "update-hotel" ->
  args !! "checkin_date" = Some v1 ->
  args !! "checkout_date" = Some v2 ->
  fromisoformat v1 = Ok d1 ->
  fromisoformat v2 = Ok d2 ->
  ~ (is_Some (utcoffset d1) <-> is_Some (utcoffset d2)) ->
  enfore_business_rules tool args w = (Raise TypeError, passed tool w).
Proof.
  intros Hn H1 H2 Hd1 Hd2 Hkind.
  rewrite (inspected tool args v1 v2 w Hn H1 H2), Hd1, Hd2.
  unfold datetime_sub.
  destruct (utcoffset d2) as [o2|], (utcoffset d1) as [o1|];
    try reflexivity; exfalso; apply Hkind; split; eauto.
Qed.

(** X4 for a check-in without offset and a check-out in UTC. *)
Lemma X4_naive_and_aware_dates_witness :
  let args : gmap string val :=
    {[ "checkin_date" := VStr "2025-01-18";
       "checkout_date" := VStr "2025-02-10T00:00:00+00:00" ]} in
  @enfore_business_rules iso_extended (mk_tool "update-hotel") args
    (World [] [])
  = (Raise TypeError, World [] ["POLICY CHECK: Intercepting 'update-hotel'"]).
Proof.
  intros args.
  refine (@X4_naive_and_aware_dates iso_extended (mk_tool "update-hotel")
            args (VStr "2025-01-18") (VStr "2025-02-10T00:00:00+00:00")
            (mk_datetime 2025 1 18 0 0 0 0 None)
            (mk_datetime 2025 2 10 0 0 0 0 (Some 0%Z))
            (World [] []) _ _ _ _ _ _); try reflexivity.
  simpl. intros [_ Hk]. destruct Hk as [x Hx]; [eauto | discriminate].
Defined.

(** ** The two callbacks together *)

(** X5.  A replacement returned by the interceptor is never enriched:
    given to the enricher, for any tool and any arguments, in the world
    the interceptor left, it makes the enricher return [None] and change
    nothing. *)
Theorem X5_replacement_is_not_enriched `{IsoFormat} `{Interpreter}
    tool args w l w' tool' args' :
  enfore_business_rules tool args w = (Ok (VRef l), w') ->
  enrich_response tool' args' (VRef l) w' = (Ok VNone, w').
Proof.
  intros [-> ->]%interceptor_returns_ref.
  rewrite enrich_response_unfold. unfold blocked. simpl.
  rewrite lookup_app_r, Nat.sub_diag by done. reflexivity.
Qed.

(** X5 for the second scenario: the update of a stay of 23 days is
    blocked, and the replacement goes through the enricher as it is. *)
Lemma X5_replacement_is_not_enriched_witness :
  let args : gmap string val :=
    {[ "checkin_date" := VStr "2025-01-18";
       "checkout_date" := VStr "2025-02-10" ]} in
  let w' :=
    World [ODict [("result", VStr error_result)]]
          ["POLICY CHECK: Intercepting 'update-hotel'";
           "BLOCKED: Stay too long"] in
  @enrich_response default_depth (mk_tool "update-hotel") args (VRef 0) w'
  = (Ok VNone, w').
Proof.
  intros args w'.
  refine (@X5_replacement_is_not_enriched iso_extended default_depth
            (mk_tool "update-hotel") args (World [] []) 0 w'
            (mk_tool "update-hotel") args _).
  reflexivity.
Defined.

(** X6.  A replacement the interceptor makes keeps the store well formed:
    whatever the outcome, the store the interceptor leaves has no dangling
    reference if the store it was given had none. *)
Theorem X6_interceptor_keeps_store_closed `{IsoFormat} tool args w :
  closed (heap_of w) = true ->
  closed (heap_of (enfore_business_rules tool args w).2) = true.
Proof.
  intros Hc. destruct (interceptor_world tool args w) as [-> | ->].
  - exact Hc.
  - unfold blocked. simpl. apply closed_app; [exact Hc |].
    simpl. by intros v ->%list_elem_of_singleton.
Qed.

(** X6 for a blocked update in a store of one list. *)
Lemma X6_interceptor_keeps_store_closed_witness :
  let args : gmap string val :=
    {[ "checkin_date" := VStr "2025-01-18";
       "checkout_date" := VStr "2025-02-10" ]} in
  closed (heap_of (@enfore_business_rules iso_extended
                     (mk_tool "update-hotel") args
                     (World [OList [VRef 0]] [])).2) = true.
Proof.
  intros args.
  apply (@X6_interceptor_keeps_store_closed iso_extended
           (mk_tool "update-hotel") args (World [OList [VRef 0]] [])).
  reflexivity.
Defined.

(** ** Response enricher *)

(** X7.  In a well-formed store the enricher never prints, for any tool,
    arguments and response, and ends in one of two ways.  Either it
    returns: then every object of the store is as it was (the new store is
    the old one with objects added), the new store is well formed again,
    the value returned lies in it, and when [None] is returned the store
    is the same.  Or it raises [RecursionError] and leaves the store as it
    was: this happens only for the tool "book-hotel" and a response that
    is a mapping nested deeper than the interpreter lets [deepcopy] go. *)
Theorem X7_enricher_outcomes `{Interpreter} tool args tool_response h out :
  closed h = true ->
  (exists (v : val) (h' : heap),
     enrich_response tool args tool_response (World h out)
     = (Ok v, World h' out)
     /\ (exists ext, h' = h ++ ext)
     /\ closed h' = true
     /\ val_ok (length h') v = true
     /\ (v = VNone -> h' = h))
  \/ (enrich_response tool args tool_response (World h out)
      = (Raise RecursionError, World h out)
      /\ name tool = "book-hotel"
      /\ (exists l items,
            tool_response = VRef l /\ h !! l = Some (ODict items))
      /\ nested_within recursion_depth [] h tool_response = false).
Proof.
  intros Hc.
  assert (forall v, val_ok (length h) v = true ->
            enrich_response tool args tool_response (World h out)
            = (Ok v, World h out) ->
            exists (v : val) (h' : heap),
              enrich_response tool args tool_response (World h out)
              = (Ok v, World h' out)
              /\ (exists ext, h' = h ++ ext) /\ closed h' = true
              /\ val_ok (length h') v = true /\ (v = VNone -> h' = h))
    as Hsame.
  { intros v Hv Hrun. exists v, h. split_and!; try done.
    exists []. by rewrite app_nil_r. }
  destruct (decide (name tool = "book-hotel")) as [Hn|Hn]; cycle 1.
  { left. apply (Hsame VNone); [done |]. rewrite enrich_response_unfold.
    destruct (result_of _ _); [| done]. apply enrich_result_none. by left. }
  destruct tool_response as [| | |s|l];
    try (left; apply (Hsame VNone);
         [done | by rewrite enrich_response_unfold]).
  - left. destruct (Str.contains "Error" s) eqn:Herr.
    + apply (Hsame VNone); [done |]. rewrite enrich_response_unfold.
      cbn [result_of]. apply enrich_result_none. eauto.
    + apply (Hsame (VStr (enriched_text 500 s))); [done |].
      rewrite enrich_response_unfold. cbn [result_of].
      by apply enrich_result_str.
  - destruct (h !! l) as [[items|elems]|] eqn:Hl;
      try (left; apply (Hsame VNone); [done |];
           rewrite enrich_response_unfold; cbn [result_of heap_of];
           by rewrite Hl).
    destruct (default (VStr "") (items_get "result" items))
      as [| | |text|] eqn:Hres;
      try (left; apply (Hsame VNone); [done |];
           rewrite enrich_response_unfold; cbn [result_of heap_of];
           by rewrite Hl, Hres).
    destruct (Str.contains "Error" text) eqn:Herr.
    { left. apply (Hsame VNone); [done |]. rewrite enrich_response_unfold.
      cbn [result_of heap_of]. rewrite Hl, Hres.
      apply enrich_result_none. eauto. }
    destruct (enrich_mapping_cases tool args l items text h out
                Hn Hc Hl Hres Herr)
      as [[Hrun Hdeep]
         | (m & l' & h1 & copied & Hrun & Hcopy & Hml & Hl' & _ & _)].
    { right. split_and!; [exact Hrun | exact Hn | by exists l, items
                         | exact Hdeep]. }
    left.
    destruct (inv_range _ _ _ Hcopy l l' Hml) as [_ [Hge Hlt]].
    destruct (inv_ext _ _ _ Hcopy) as [ext Hext]. simpl in Hext, Hlt.
    eexists (VRef l'), _. split; [exact Hrun |]. split_and!.
    + eexists. rewrite Hext. by rewrite insert_app_r_alt.
    + by eapply closed_after_copy.
    + simpl. rewrite length_insert. by apply bool_decide_eq_true.
    + done.
Qed.

(** X7 for a booking result that holds a list, which holds the result:
    the enricher returns. *)
Lemma X7_enricher_outcomes_witness :
  let h : heap :=
    [ODict [("result", VStr "Hotel 3 booked"); ("meta", VRef 1)];
     OList [VRef 0]] in
  exists (v : val) (h' : heap),
    @enrich_response default_depth (mk_tool "book-hotel") ∅ (VRef 0)
      (World h [])
    = (Ok v, World h' [])
    /\ (exists ext, h' = h ++ ext)
    /\ closed h' = true
    /\ val_ok (length h') v = true
    /\ (v = VNone -> h' = h).
Proof.
  intros h.
  destruct (@X7_enricher_outcomes default_depth
              (mk_tool "book-hotel") ∅ (VRef 0) h [] eq_refl)
    as [Hreturns | (_ & _ & _ & Hdeep)]; [exact Hreturns |].
  discriminate Hdeep.
Defined.

(** X8.  The enriched text has "Error" in it exactly when the original
    text has.  So what the enricher makes of a successful booking is a
    successful result again: given to the enricher once more, it is
    enriched a second time. *)
Theorem X8_enriched_text_is_a_success `{Interpreter} tool args text w :
  name tool = "book-hotel" ->
  Str.contains "Error" text = false ->
  (forall t, Str.contains "Error" (enriched_text 500 t)
             = Str.contains "Error" t)
  /\ enrich_response tool args (VStr (enriched_text 500 text)) w
     = (Ok (VStr (enriched_text 500 (enriched_text 500 text))), w).
Proof.
  intros Hn Herr. split; [apply enriched_text_marker |].
  rewrite enrich_response_unfold.
  change (result_of (heap_of w) (VStr (enriched_text 500 text)))
    with (Some (VStr (enriched_text 500 text))).
  apply enrich_result_str; [done |]. by rewrite enriched_text_marker.
Qed.

(** X8 for a one-line confirmation. *)
Lemma X8_enriched_text_is_a_success_witness :
  @enrich_response default_depth (mk_tool "book-hotel") ∅
    (VStr (enriched_text 500 "Hotel 3 booked")) (World [] [])
  = (Ok (VStr (enriched_text 500 (enriched_text 500 "Hotel 3 booked"))),
     World [] []).
Proof.
  refine (proj2 (@X8_enriched_text_is_a_success default_depth
                   (mk_tool "book-hotel") ∅
                   "Hotel 3 booked" (World [] []) _ _)); reflexivity.
Defined.

(** ** Turn driver *)

(** X9.  What the driver prints depends on the events through their text
    only: two finite streams that carry the same text, cut into events and
    parts in different ways, give the same two lines. *)
Theorem X9_chunking_does_not_matter
    runner runner' session_id user_id message_text events events' w :
  run_async runner user_id session_id (user_message message_text)
  = stream_of events ->
  run_async runner' user_id session_id (user_message message_text)
  = stream_of events' ->
  text_of events = text_of events' ->
  run_chat_turn runner session_id user_id message_text w
  = run_chat_turn runner' session_id user_id message_text w.
Proof.
  intros Hs Hs' Htext. rewrite !run_chat_turn_unfold, Hs, Hs'.
  unfold stream_of. rewrite !consume_then. simpl.
  unfold text_of in Htext. by rewrite Htext.
Qed.

(** X9 for "abc" in one part, and in three events with an empty one. *)
Lemma X9_chunking_does_not_matter_witness :
  let part t := mk_part (Some t) in
  let event ps := mk_event (Some (mk_content None (Some ps))) in
  let events := [event [part "abc"]] in
  let events' := [event [part "a"]; event []; event [part "b"; part "c"]] in
  run_chat_turn (mk_runner (fun _ _ _ => stream_of events)) "s" "u" "hi"
    (World [] [])
  = run_chat_turn (mk_runner (fun _ _ _ => stream_of events')) "s" "u" "hi"
      (World [] []).
Proof.
  intros part event events events'.
  apply (X9_chunking_does_not_matter
           (mk_runner (fun _ _ _ => stream_of events))
           (mk_runner (fun _ _ _ => stream_of events'))
           "s" "u" "hi" events events' (World [] [])); reflexivity.
Defined.

(** ** The program *)

(** X10.  When the first turn ends in an exception -- of the runtime, of
    a tool or of a callback -- [main] ends with that exception in the
    world the turn left, with what the callbacks of the turn printed after
    the user's line: the line of dashes is not printed, the second message
    is not submitted and the toolset is not closed -- the outcome is the
    same whatever closing the toolset would do. *)
Theorem X10_first_turn_failure `{IsoFormat} `{Interpreter}
    env w tools w1 w2 events e w3 :
  get_tools env w = (Ok tools, w1) ->
  create_session env "my_agent" "test-user" "test-session" w1 = (Ok tt, w2) ->
  answer (runner_of env tools) first_message w2
  = (stream_then events (Fails e), w3) ->
  main env w = (Raise e, w3)
  /\ forall c, main (with_close env c) w = (Raise e, w3).
Proof.
  intros Htools Hsession H1. split; [| intros c].
  - rewrite (main_unfold env w tools w1 w2 Htools Hsession).
    by rewrite H1, consume_then.
  - rewrite (main_unfold (with_close env c) w tools w1 w2 Htools Hsession).
    change (runner_of (with_close env c) tools) with (runner_of env tools).
    by rewrite H1, consume_then.
Qed.

(** X10 for a model that books the hotel and a connection that is lost
    after the tool has answered: the interceptor has printed its line. *)
Lemma X10_first_turn_failure_witness :
  let books :=
    Live.Call (mk_tool "book-hotel") {[ "hotel_id" := VInt 3 ]}
      (fun _ => Live.Abort (OtherError "ConnectionError")) in
  @main iso_extended default_depth
    (sample_env (decides books Live.Finish)) (World [] [])
  = (Raise (OtherError "ConnectionError"),
     World [] [user_line first_message;
               "POLICY CHECK: Intercepting 'book-hotel'"]).
Proof.
  intros books.
  refine (proj1
    (@X10_first_turn_failure iso_extended default_depth
       (sample_env (decides books Live.Finish))
       (World [] []) [mk_tool "book-hotel"; mk_tool "update-hotel"]
       (World [] []) (World [] []) [] (OtherError "ConnectionError")
       (World [] [user_line first_message;
                  "POLICY CHECK: Intercepting 'book-hotel'"])
       _ _ _)); reflexivity.
Defined.

(** X11.  When the first turn goes well and the second turn ends in an
    exception, [main] ends with that exception in the world the second
    turn left.  The second turn starts after the answer of the first turn
    and the line of 50 dashes, in the store the first turn left; the
    toolset is not closed. *)
Theorem X11_second_turn_failure `{IsoFormat} `{Interpreter}
    env w tools w1 w2 events1 w3 events2 e w4 :
  get_tools env w = (Ok tools, w1) ->
  create_session env "my_agent" "test-user" "test-session" w1 = (Ok tt, w2) ->
  answer (runner_of env tools) first_message w2 = (stream_of events1, w3) ->
  answer (runner_of env tools) second_message
    (World (heap_of w3)
       (stdout w3 ++ ["AI: " +:+ text_of events1;
                      "--------------------------------------------------"]))
  = (stream_then events2 (Fails e), w4) ->
  main env w = (Raise e, w4)
  /\ forall c, main (with_close env c) w = (Raise e, w4).
Proof.
  intros Htools Hsession H1 H2.
  change "--------------------------------------------------"
    with dashes in H2.
  split; [| intros c].
  - rewrite (main_unfold env w tools w1 w2 Htools Hsession).
    rewrite H1. unfold stream_of. rewrite consume_then.
    cbn [consume]. fold (text_of events1).
    change ("" +:+ text_of events1) with (text_of events1).
    by rewrite H2, consume_then.
  - rewrite (main_unfold (with_close env c) w tools w1 w2 Htools Hsession).
    change (runner_of (with_close env c) tools) with (runner_of env tools).
    rewrite H1. unfold stream_of. rewrite consume_then.
    cbn [consume]. fold (text_of events1).
    change ("" +:+ text_of events1) with (text_of events1).
    by rewrite H2, consume_then.
Qed.

(** X11 for the two scenarios of [main], with a connection that is lost in
    the second turn: the booking is confirmed; the stay of 23 days is
    blocked, and the replacement is in the store when [main] ends. *)
Lemma X11_second_turn_failure_witness :
  let books :=
    Live.Call (mk_tool "book-hotel") {[ "hotel_id" := VInt 3 ]}
      (fun _ => Live.Emit (says "Booked.") Live.Finish) in
  let updates :=
    Live.Call (mk_tool "update-hotel")
      {[ "checkin_date" := VStr "2025-01-18";
         "checkout_date" := VStr "2025-02-10" ]}
      (fun _ => Live.Abort (OtherError "ConnectionError")) in
  @main iso_extended default_depth
    (sample_env (decides books updates)) (World [] [])
  = (Raise (OtherError "ConnectionError"),
     World [ODict [("result", VStr error_result)]]
       [user_line first_message;
        "POLICY CHECK: Intercepting 'book-hotel'";
        "AI: Booked.";
        "--------------------------------------------------";
        user_line second_message;
        "POLICY CHECK: Intercepting 'update-hotel'";
        "BLOCKED: Stay too long"]).
Proof.
  intros books updates.
  refine (proj1
    (@X11_second_turn_failure iso_extended default_depth
       (sample_env (decides books updates))
       (World [] []) [mk_tool "book-hotel"; mk_tool "update-hotel"]
       (World [] []) (World [] []) [says "Booked."]
       (World [] [user_line first_message;
                  "POLICY CHECK: Intercepting 'book-hotel'"])
       [] (OtherError "ConnectionError")
       (World [ODict [("result", VStr error_result)]]
          [user_line first_message;
           "POLICY CHECK: Intercepting 'book-hotel'";
           "AI: Booked.";
           "--------------------------------------------------";
           user_line second_message;
           "POLICY CHECK: Intercepting 'update-hotel'";
           "BLOCKED: Stay too long"])
       _ _ _ _)); reflexivity.
Defined.
